(** * mizu [check] command: a shallow embedding of cli/cmd/check.go

    The Go code talks to a Kubernetes cluster through [kubernetes.Provider],
    to the Mizu API server through [apiserver.Provider], and to the operator
    through [logger.Log].  None of these collaborators is part of the file that
    is verified here, so they are taken as an abstract signature
    ([Externals]) over an abstract world; the check functions themselves are
    embedded as computations that thread the world and produce, in order, the
    log lines written and the external calls made. *)

From Stdlib Require Import String List Bool Arith Lia.
Import ListNotations.
Open Scope string_scope.
Open Scope list_scope.

(* ================================================================== *)
(** ** Values *)

(** A non-nil Go [error], identified with its message. *)
Definition Err := string.

(** A Go value of type [error]: [None] is [nil]. *)
Definition error := option Err.

(** The result of a Go function returning a pointer and an [error], whose
    caller tests [err != nil] before it touches the pointer. *)
Inductive Result (T : Type) : Type :=
| Val (v : T)
| Fail (e : Err).
Arguments Val {T} v.
Arguments Fail {T} e.

(** [core.PodPhase]. *)
Inductive PodPhase : Type :=
| PodPending | PodRunning | PodSucceeded | PodFailed | PodUnknown.

Definition PodPhase_eqb (a b : PodPhase) : bool :=
  match a, b with
  | PodPending, PodPending | PodRunning, PodRunning
  | PodSucceeded, PodSucceeded | PodFailed, PodFailed
  | PodUnknown, PodUnknown => true
  | _, _ => false
  end.

(** The part of [core.Pod] the checks read. *)
Record Pod : Type := { PodName : string; StatusPhase : PodPhase }.

(** [rbac.PolicyRule]: three slices, order and duplicates kept. *)
Record PolicyRule : Type :=
  { APIGroups : list string; Resources : list string; Verbs : list string }.

(** [runtime.Object] as far as [checkK8sTapPermissions] distinguishes it. *)
Inductive RuntimeObject : Type :=
| RoleObject (Rules : list PolicyRule)
| ClusterRoleObject (Rules : list PolicyRule)
| OtherObject.

(** The pod [createImagePullInClusterResources] asks the cluster to run. *)
Record ProbePod : Type :=
  { ObjectMetaName : string;
    ContainerName : string;
    Image : string;
    ImagePullPolicy : string;
    Command : list string;
    Stdin : bool;
    TerminationGracePeriodSeconds : nat }.

(** One turn of the [select] statement of [checkImagePulled]: the case taken
    and, for a channel case, the value received ([None] when [ok] is false,
    that is, the channel was closed).  The error channel has element type
    [error], so the value received from it may itself be [nil]. *)
Inductive Select (E : Type) : Type :=
| RecvEvent (m : option E)
| RecvError (m : option error)
| TimerFired.
Arguments RecvEvent {E} m.
Arguments RecvError {E} m.
Arguments TimerFired {E}.

(* ================================================================== *)
(** ** Configuration *)

(** [config.Config], the fields [check.go] reads.  [IsNsRestrictedMode] is a
    method of the configuration whose body lives in another package; its value
    is fixed for a run and taken as a field. *)
Record Config : Type :=
  { PreTap : bool;
    MizuResourcesNamespace : string;
    IsNsRestrictedMode : bool;
    KubeConfigPath : string;
    KubeContext : string;
    GuiPort : nat;
    ProxyHost : string }.

(* ================================================================== *)
(** ** What is observed: log lines and external calls *)

Inductive Level : Type := Info | Error | Debug.

(** One constructor per format string of [check.go], with its arguments. *)
Inductive Msg : Type :=
| MizuChecks
| Heading (title : string)
| StatusResults (ok : bool)
| CantInitClient (e : Err)
| CanInitClient
| CantQueryApi (e : Err)
| CanQueryApi
| VersionTooOld (e : Err)
| VersionOk
| TunnelAvailable
| ProxyFailed (e : Err)
| ProxyConnected
| PortForwardFailed (e : Err)
| PortForwardConnected
| ProxyStopError (e : Err)
| ResourceError (name type : string) (e : Err)
| ResourceMissing (name type : string)
| ResourceExists (name type : string)
| PodError (name : string) (e : Err)
| PodMissing (name : string)
| PodNotRunning (name : string)
| PodRunningMsg (name : string)
| TappersError (name : string) (e : Err)
| TappersNotRunning (name : string) (notRunning total : nat)
| TappersRunning (name : string) (total : nat)
| PermissionsFileError (e : Err)
| PermissionError (verb resource group : string) (e : Err)
| PermissionDenied (verb resource group : string)
| PermissionGranted (verb resource group : string)
| ImagePullCreateError (e : Err)
| ImagePullFailed (e : Err)
| ImagePullOk
| ImagePullRemoveError (e : Err).

(** The calls that leave the process. *)
Inductive Call : Type :=
| NewProviderCall (path context : string)
| GetKubernetesVersionCall
| DoesNamespaceExistCall (ns : string)
| DoesConfigMapExistCall (ns name : string)
| DoesServiceAccountExistCall (ns name : string)
| DoesRoleExistCall (ns name : string)
| DoesRoleBindingExistCall (ns name : string)
| DoesClusterRoleExistCall (name : string)
| DoesClusterRoleBindingExistCall (name : string)
| DoesServiceExistCall (ns name : string)
| ListPodsByAppLabelCall (ns label : string)
| CanICall (ns resource verb group : string)
| TestConnectionCall (url : string) (retries : nat)
| StartProxyCall (host : string) (port : nat) (ns pod : string)
| ShutdownCall
| NewPortForwardCall (ns regex : string) (port : nat)
| ForwarderCloseCall
| CreateNamespaceCall (ns : string)
| CreatePodCall (ns name : string)
| RemovePodCall (ns name : string)
| RemoveNamespaceCall (ns : string)
| FilteredWatchCall (regex : string) (namespaces : list string)
| CancelCall.

Inductive Event : Type :=
| Logged (l : Level) (m : Msg)
| Called (c : Call).

(* ================================================================== *)
(** ** The collaborators *)

(** Everything [check.go] imports from the rest of the repository and from
    client-go.  An operation on the cluster or on the network takes the world
    and gives the world back; constants and pure helpers are plain fields. *)
Record Externals : Type :=
  { World : Type;
    Provider : Type;
    SemVersion : Type;
    HttpServer : Type;
    PortForwarder : Type;
    WatchEvent : Type;

    (* package kubernetes: names *)
    ApiServerPodName : string;
    TapperPodName : string;
    ConfigMapName : string;
    ServiceAccountName : string;
    RoleName : string;
    RoleBindingName : string;
    ClusterRoleName : string;
    ClusterRoleBindingName : string;

    (* package apiserver: budgets, and the URL helper of package cmd *)
    DefaultRetries : nat;
    DefaultTimeout : nat;
    GetApiServerUrl : nat -> string;

    (* pure helpers *)
    ValidateKubernetesVersion : SemVersion -> error;
    IsPodRunning : Pod -> bool;
    ToPod : WatchEvent -> Result Pod;
    ReadFile : string -> Result (list Init.Byte.byte);
    Decode : list Init.Byte.byte -> Result RuntimeObject;

    (* cluster client *)
    NewProvider : string -> string -> World -> Result Provider * World;
    GetKubernetesVersion : Provider -> World -> Result SemVersion * World;
    DoesNamespaceExist : Provider -> string -> World -> (bool * error) * World;
    DoesConfigMapExist :
      Provider -> string -> string -> World -> (bool * error) * World;
    DoesServiceAccountExist :
      Provider -> string -> string -> World -> (bool * error) * World;
    DoesRoleExist :
      Provider -> string -> string -> World -> (bool * error) * World;
    DoesRoleBindingExist :
      Provider -> string -> string -> World -> (bool * error) * World;
    DoesClusterRoleExist : Provider -> string -> World -> (bool * error) * World;
    DoesClusterRoleBindingExist :
      Provider -> string -> World -> (bool * error) * World;
    DoesServiceExist :
      Provider -> string -> string -> World -> (bool * error) * World;
    ListPodsByAppLabel :
      Provider -> string -> string -> World -> (list Pod * error) * World;
    CanI :
      Provider -> string -> string -> string -> string -> World ->
      (bool * error) * World;
    CreateNamespace : Provider -> string -> World -> error * World;
    CreatePod : Provider -> string -> ProbePod -> World -> error * World;
    RemovePod : Provider -> string -> string -> World -> error * World;
    RemoveNamespace : Provider -> string -> World -> error * World;

    (* tunnels and the API server *)
    TestConnection : string -> nat -> nat -> World -> error * World;
    StartProxy :
      Provider -> string -> nat -> string -> string -> World ->
      Result HttpServer * World;
    Shutdown : HttpServer -> World -> error * World;
    NewPortForward :
      Provider -> string -> string -> nat -> World ->
      Result PortForwarder * World;
    ForwarderClose : PortForwarder -> World -> World;

    (* the watch: the turns the select loop is going to take *)
    FilteredWatch :
      Provider -> string -> list string -> World ->
      list (Select WatchEvent) * World }.

(* ================================================================== *)
(** ** The computation monad *)

(** A Go call either returns or panics. *)
Inductive Res (A : Type) : Type :=
| Ok (a : A)
| Panic (why : string).
Arguments Ok {A} a.
Arguments Panic {A} why.

Definition M (X : Externals) (A : Type) : Type :=
  World X -> Res A * list Event * World X.

Definition ret {X A} (a : A) : M X A := fun w => (Ok a, [], w).

Definition bind {X A B} (m : M X A) (f : A -> M X B) : M X B :=
  fun w =>
    match m w with
    | (Ok a, t1, w1) =>
        match f a w1 with
        | (r, t2, w2) => (r, t1 ++ t2, w2)
        end
    | (Panic s, t1, w1) => (Panic s, t1, w1)
    end.

Declare Scope check_scope.
Delimit Scope check_scope with check.
Notation "x <- m ;; k" := (bind m (fun x => k))
  (at level 100, m at next level, right associativity) : check_scope.
Notation "' p <- m ;; k" := (bind m (fun x => let p := x in k))
  (at level 100, p pattern, m at next level, right associativity) : check_scope.
Notation "m ;; k" := (bind m (fun _ => k))
  (at level 100, right associativity) : check_scope.
Open Scope check_scope.

Definition panic {X A} (why : string) : M X A := fun w => (Panic why, [], w).

(** [logger.Log.Infof], [Errorf], [Debugf]. *)
Definition log {X} (l : Level) (m : Msg) : M X unit :=
  fun w => (Ok tt, [Logged l m], w).

(** An external call: the call is recorded, the world moves on. *)
Definition call {X A} (c : Call) (op : World X -> A * World X) : M X A :=
  fun w => let (a, w1) := op w in (Ok a, [Called c], w1).

(** [defer d] at the head of a function body: [d] runs when the body is left,
    by [return] or by panic, and the body's result stands. *)
Definition defer {X A} (d : M X unit) (body : M X A) : M X A :=
  fun w =>
    match body w with
    | (r, t1, w1) =>
        match d w1 with
        | (Ok _, t2, w2) => (r, t1 ++ t2, w2)
        | (Panic s, t2, w2) => (Panic s, t1 ++ t2, w2)
        end
    end.

(** [for _, x := range l { acc = body x acc }]. *)
Fixpoint forEach {X A S} (l : list A) (body : A -> S -> M X S) (acc : S)
  : M X S :=
  match l with
  | [] => ret acc
  | x :: l' => acc' <- body x acc ;; forEach l' body acc'
  end.

(** [context.WithCancel] followed by [defer cancel()]. *)
Definition cancel {X} : M X unit :=
  fun w => (Ok tt, [Called CancelCall], w).

(** Following a pointer that may be nil. *)
Definition deref {X A} (ptr : option A) : M X A :=
  match ptr with
  | Some a => ret a
  | None => panic "nil pointer dereference"
  end.

(* ================================================================== *)
(** ** The checks *)

Section Checks.

Variable X : Externals.
Variable cfg : Config.

Local Abbreviation ns := (MizuResourcesNamespace cfg).

(** *** API reachability and version *)

Definition checkKubernetesApi
  : M X (option (Provider X) * option (SemVersion X) * bool) :=
  log Info (Heading "kubernetes-api") ;;
  r <- call (NewProviderCall (KubeConfigPath cfg) (KubeContext cfg))
            (NewProvider X (KubeConfigPath cfg) (KubeContext cfg)) ;;
  match r with
  | Fail err => log Error (CantInitClient err) ;; ret (None, None, false)
  | Val kubernetesProvider =>
      log Info CanInitClient ;;
      r <- call GetKubernetesVersionCall
                (GetKubernetesVersion X kubernetesProvider) ;;
      match r with
      | Fail err => log Error (CantQueryApi err) ;; ret (None, None, false)
      | Val kubernetesVersion =>
          log Info CanQueryApi ;;
          ret (Some kubernetesProvider, Some kubernetesVersion, true)
      end
  end.

Definition checkKubernetesVersion (kubernetesVersion : SemVersion X)
  : M X bool :=
  log Info (Heading "kubernetes-version") ;;
  match ValidateKubernetesVersion X kubernetesVersion with
  | Some err => log Error (VersionTooOld err) ;; ret false
  | None => log Info VersionOk ;; ret true
  end.

(** *** Connectivity *)

(** [StartProxy] also receives [cancel], for its own goroutine; what that
    goroutine does is part of the world. *)
Definition checkProxy (serverUrl : string) (kubernetesProvider : Provider X)
  : M X error :=
  defer cancel
    (r <- call (StartProxyCall (ProxyHost cfg) (GuiPort cfg) ns
                               (ApiServerPodName X))
               (StartProxy X kubernetesProvider (ProxyHost cfg) (GuiPort cfg)
                           ns (ApiServerPodName X)) ;;
     match r with
     | Fail err => ret (Some err)
     | Val httpServer =>
         err <- call (TestConnectionCall serverUrl (DefaultRetries X))
                     (TestConnection X serverUrl (DefaultRetries X)
                                     (DefaultTimeout X)) ;;
         match err with
         | Some err => ret (Some err)
         | None =>
             err <- call ShutdownCall (Shutdown X httpServer) ;;
             match err with
             | Some err => log Debug (ProxyStopError err)
             | None => ret tt
             end ;;
             ret None
         end
     end).

Definition checkPortForward (serverUrl : string)
  (kubernetesProvider : Provider X) : M X error :=
  defer cancel
    (let podRegex := ApiServerPodName X in
     r <- call (NewPortForwardCall ns podRegex (GuiPort cfg))
               (NewPortForward X kubernetesProvider ns podRegex
                               (GuiPort cfg)) ;;
     match r with
     | Fail err => ret (Some err)
     | Val forwarder =>
         err <- call (TestConnectionCall serverUrl (DefaultRetries X))
                     (TestConnection X serverUrl (DefaultRetries X)
                                     (DefaultTimeout X)) ;;
         match err with
         | Some err => ret (Some err)
         | None =>
             call ForwarderCloseCall
                  (fun w => (tt, ForwarderClose X forwarder w)) ;;
             ret None
         end
     end).

Definition checkServerConnection (kubernetesProvider : Provider X)
  : M X bool :=
  log Info (Heading "API-server-connectivity") ;;
  let serverUrl := GetApiServerUrl X (GuiPort cfg) in
  err <- call (TestConnectionCall serverUrl 1)
              (TestConnection X serverUrl 1 (DefaultTimeout X)) ;;
  match err with
  | None => log Info TunnelAvailable ;; ret true
  | Some _ =>
      let connectedToApiServer := false in
      err <- checkProxy serverUrl kubernetesProvider ;;
      connectedToApiServer <-
        match err with
        | Some err => log Error (ProxyFailed err) ;; ret connectedToApiServer
        | None => log Info ProxyConnected ;; ret true
        end ;;
      err <- checkPortForward serverUrl kubernetesProvider ;;
      connectedToApiServer <-
        match err with
        | Some err =>
            log Error (PortForwardFailed err) ;; ret connectedToApiServer
        | None => log Info PortForwardConnected ;; ret true
        end ;;
      ret connectedToApiServer
  end.

(** *** Resources *)

Definition checkResourceExist (resourceName resourceType : string)
  (exist : bool) (err : error) : M X bool :=
  match err with
  | Some err =>
      log Error (ResourceError resourceName resourceType err) ;; ret false
  | None =>
      if negb exist
      then log Error (ResourceMissing resourceName resourceType) ;; ret false
      else log Info (ResourceExists resourceName resourceType) ;; ret true
  end.

(** The counting loop over the tapper pods; the counters are Go [int]s that
    count elements of a slice, so they never wrap. *)
Definition countTappers (pods : list Pod) : nat * nat :=
  fold_left
    (fun (c : nat * nat) (pod : Pod) =>
       let (tappers, notRunningTappers) := c in
       (tappers + 1,
        if negb (IsPodRunning X pod)
        then notRunningTappers + 1 else notRunningTappers))
    pods (0, 0).

Definition checkPodResourcesExist (kubernetesProvider : Provider X)
  : M X bool :=
  ' (pods, err) <-
    call (ListPodsByAppLabelCall ns (ApiServerPodName X))
         (ListPodsByAppLabel X kubernetesProvider ns (ApiServerPodName X)) ;;
  match err with
  | Some err => log Error (PodError (ApiServerPodName X) err) ;; ret false
  | None =>
      match pods with
      | [] => log Error (PodMissing (ApiServerPodName X)) ;; ret false
      | pod0 :: _ =>
          if negb (IsPodRunning X pod0)
          then log Error (PodNotRunning (ApiServerPodName X)) ;; ret false
          else
            log Info (PodRunningMsg (ApiServerPodName X)) ;;
            ' (pods, err) <-
              call (ListPodsByAppLabelCall ns (TapperPodName X))
                   (ListPodsByAppLabel X kubernetesProvider ns
                                       (TapperPodName X)) ;;
            match err with
            | Some err =>
                log Error (TappersError (TapperPodName X) err) ;; ret false
            | None =>
                let (tappers, notRunningTappers) := countTappers pods in
                if (0 <? notRunningTappers)%nat
                then
                  log Error (TappersNotRunning (TapperPodName X)
                                               notRunningTappers tappers) ;;
                  ret false
                else
                  log Info (TappersRunning (TapperPodName X) tappers) ;;
                  ret true
            end
      end
  end.

Definition checkK8sResources (kubernetesProvider : Provider X) : M X bool :=
  log Info (Heading "k8s-components") ;;
  ' (exist_, err) <-
    call (DoesNamespaceExistCall ns)
         (DoesNamespaceExist X kubernetesProvider ns) ;;
  allResourcesExist <- checkResourceExist ns "namespace" exist_ err ;;
  ' (exist_, err) <-
    call (DoesConfigMapExistCall ns (ConfigMapName X))
         (DoesConfigMapExist X kubernetesProvider ns (ConfigMapName X)) ;;
  r <- checkResourceExist (ConfigMapName X) "config map" exist_ err ;;
  let allResourcesExist := r && allResourcesExist in
  ' (exist_, err) <-
    call (DoesServiceAccountExistCall ns (ServiceAccountName X))
         (DoesServiceAccountExist X kubernetesProvider ns
                                  (ServiceAccountName X)) ;;
  r <- checkResourceExist (ServiceAccountName X) "service account" exist_ err ;;
  let allResourcesExist := r && allResourcesExist in
  allResourcesExist <-
    (if IsNsRestrictedMode cfg
     then
       ' (exist_, err) <-
         call (DoesRoleExistCall ns (RoleName X))
              (DoesRoleExist X kubernetesProvider ns (RoleName X)) ;;
       r <- checkResourceExist (RoleName X) "role" exist_ err ;;
       let allResourcesExist := r && allResourcesExist in
       ' (exist_, err) <-
         call (DoesRoleBindingExistCall ns (RoleBindingName X))
              (DoesRoleBindingExist X kubernetesProvider ns
                                    (RoleBindingName X)) ;;
       r <- checkResourceExist (RoleBindingName X) "role binding" exist_ err ;;
       ret (r && allResourcesExist)
     else
       ' (exist_, err) <-
         call (DoesClusterRoleExistCall (ClusterRoleName X))
              (DoesClusterRoleExist X kubernetesProvider (ClusterRoleName X)) ;;
       r <- checkResourceExist (ClusterRoleName X) "cluster role" exist_ err ;;
       let allResourcesExist := r && allResourcesExist in
       ' (exist_, err) <-
         call (DoesClusterRoleBindingExistCall (ClusterRoleBindingName X))
              (DoesClusterRoleBindingExist X kubernetesProvider
                                           (ClusterRoleBindingName X)) ;;
       r <- checkResourceExist (ClusterRoleBindingName X)
                               "cluster role binding" exist_ err ;;
       ret (r && allResourcesExist)) ;;
  ' (exist_, err) <-
    call (DoesServiceExistCall ns (ApiServerPodName X))
         (DoesServiceExist X kubernetesProvider ns (ApiServerPodName X)) ;;
  r <- checkResourceExist (ApiServerPodName X) "service" exist_ err ;;
  let allResourcesExist := r && allResourcesExist in
  r <- checkPodResourcesExist kubernetesProvider ;;
  let allResourcesExist := r && allResourcesExist in
  ret allResourcesExist.

(** *** Permissions *)

Definition checkPermissionExist (group resource verb : string)
  (exist : bool) (err : error) : M X bool :=
  match err with
  | Some err => log Error (PermissionError verb resource group err) ;; ret false
  | None =>
      if negb exist
      then log Error (PermissionDenied verb resource group) ;; ret false
      else log Info (PermissionGranted verb resource group) ;; ret true
  end.

Definition checkPermissions (kubernetesProvider : Provider X)
  (rules : list PolicyRule) : M X bool :=
  let permissionsExist := true in
  forEach rules (fun rule permissionsExist =>
    forEach (APIGroups rule) (fun group permissionsExist =>
      forEach (Resources rule) (fun resource permissionsExist =>
        forEach (Verbs rule) (fun verb permissionsExist =>
          ' (exist_, err) <-
            call (CanICall ns resource verb group)
                 (CanI X kubernetesProvider ns resource verb group) ;;
          r <- checkPermissionExist group resource verb exist_ err ;;
          ret (r && permissionsExist))
        permissionsExist)
      permissionsExist)
    permissionsExist)
  permissionsExist.

Definition getDecodedObject (data : list Init.Byte.byte)
  : Result RuntimeObject :=
  match Decode X data with
  | Fail err => Fail err
  | Val obj => Val obj
  end.

(** The type assertions to a Role pointer and to a ClusterRole pointer are of
    the one-result form: on another dynamic type they panic. *)
Definition checkK8sTapPermissions (kubernetesProvider : Provider X)
  : M X bool :=
  log Info (Heading "kubernetes-permissions") ;;
  let filePath :=
    if IsNsRestrictedMode cfg
    then "permissionFiles/permissions-ns-tap.yaml"
    else "permissionFiles/permissions-all-namespaces-tap.yaml" in
  match ReadFile X filePath with
  | Fail err => log Error (PermissionsFileError err) ;; ret false
  | Val data =>
      match getDecodedObject data with
      | Fail err => log Error (PermissionsFileError err) ;; ret false
      | Val obj =>
          rules <-
            (if IsNsRestrictedMode cfg
             then match obj with
                  | RoleObject rules => ret rules
                  | _ => panic "interface conversion"
                  end
             else match obj with
                  | ClusterRoleObject rules => ret rules
                  | _ => panic "interface conversion"
                  end) ;;
          checkPermissions kubernetesProvider rules
      end
  end.

(** *** Image pull *)

Definition imageNotPulledInTime : Err := "image not pulled in time".

(** The [for { select { ... } }] loop of [checkImagePulled].  [eventChan] and
    [errorChan] say whether the variable of that name still holds a channel
    (it is set to nil once the channel is seen closed, and a nil channel is
    never chosen by [select]).  [turns] lists the cases [select] takes, in
    order; [time.After] fires after thirty seconds whatever happens, so when
    [turns] runs out the timer case is the one taken.  The function returns
    the error and the turns it did not consume. *)
Fixpoint selectLoop (eventChan errorChan : bool)
  (turns : list (Select (WatchEvent X)))
  : error * list (Select (WatchEvent X)) :=
  match turns with
  | [] => (Some imageNotPulledInTime, [])
  | RecvEvent m :: rest =>
      if eventChan
      then match m with
           | None => selectLoop false errorChan rest
           | Some wEvent =>
               match ToPod X wEvent with
               | Fail err => (Some err, rest)
               | Val pod =>
                   if PodPhase_eqb (StatusPhase pod) PodRunning
                   then (None, rest)
                   else selectLoop eventChan errorChan rest
               end
           end
      else selectLoop eventChan errorChan rest
  | RecvError m :: rest =>
      if errorChan
      then match m with
           | None => selectLoop eventChan false rest
           | Some err => (err, rest)
           end
      else selectLoop eventChan errorChan rest
  | TimerFired :: rest => (Some imageNotPulledInTime, rest)
  end.

(** [regexp.MustCompile] panics on a pattern that does not compile.  The
    pattern is [podName] between anchors; the one caller passes a constant
    name, for which the pattern compiles, and the embedding covers the calls
    in which it does: the pattern is handed to the watch as it is. *)
Definition checkImagePulled (kubernetesProvider : Provider X)
  (podName : string) : M X error :=
  let podExactRegex := ("^" ++ podName ++ "$")%string in
  turns <- call (FilteredWatchCall podExactRegex [ns])
                (FilteredWatch X kubernetesProvider podExactRegex [ns]) ;;
  ret (fst (selectLoop true true turns)).

Definition removeImagePullInClusterResources
  (kubernetesProvider : Provider X) (podName : string) : M X unit :=
  err <- call (RemovePodCall ns podName)
              (RemovePod X kubernetesProvider ns podName) ;;
  match err with
  | Some err => log Debug (ImagePullRemoveError err)
  | None => ret tt
  end ;;
  if negb (IsNsRestrictedMode cfg)
  then
    err <- call (RemoveNamespaceCall ns)
                (RemoveNamespace X kubernetesProvider ns) ;;
    match err with
    | Some err => log Debug (ImagePullRemoveError err)
    | None => ret tt
    end
  else ret tt.

Definition createImagePullInClusterResources
  (kubernetesProvider : Provider X) (podName : string) : M X error :=
  err <-
    (if negb (IsNsRestrictedMode cfg)
     then call (CreateNamespaceCall ns)
               (CreateNamespace X kubernetesProvider ns)
     else ret None) ;;
  match err with
  | Some err => ret (Some err)
  | None =>
      let zero := 0 in
      let pod :=
        {| ObjectMetaName := podName;
           ContainerName := "probe";
           Image := "up9inc/busybox";
           ImagePullPolicy := "Always";
           Command := ["cat"];
           Stdin := true;
           TerminationGracePeriodSeconds := zero |} in
      err <- call (CreatePodCall ns podName)
                  (CreatePod X kubernetesProvider ns pod) ;;
      match err with
      | Some err => ret (Some err)
      | None => ret None
      end
  end.

(** The body of [checkImagePullInCluster] below its [defer]. *)
Definition checkImagePullInClusterBody (kubernetesProvider : Provider X)
  (podName : string) : M X bool :=
  err <- createImagePullInClusterResources kubernetesProvider podName ;;
  match err with
  | Some err => log Error (ImagePullCreateError err) ;; ret false
  | None =>
      err <- checkImagePulled kubernetesProvider podName ;;
      match err with
      | Some err => log Error (ImagePullFailed err) ;; ret false
      | None => log Info ImagePullOk ;; ret true
      end
  end.

Definition checkImagePullInCluster (kubernetesProvider : Provider X)
  : M X bool :=
  log Info (Heading "image-pull-in-cluster") ;;
  let podName := "image-pull-in-cluster" in
  defer (removeImagePullInClusterResources kubernetesProvider podName)
        (checkImagePullInClusterBody kubernetesProvider podName).

(** *** The orchestrator *)

(** [runMizuCheck] returns nothing; its verdict is the last line it logs.  The
    embedding also returns [checkPassed] as it stands at that line. *)
Definition runMizuCheck : M X bool :=
  log Info MizuChecks ;;
  defer cancel
    (' (kubernetesProvider, kubernetesVersion, checkPassed) <-
       checkKubernetesApi ;;
     checkPassed <-
       (if checkPassed : bool
        then v <- deref kubernetesVersion ;; checkKubernetesVersion v
        else ret checkPassed) ;;
     checkPassed <-
       (if PreTap cfg
        then
          checkPassed <-
            (if checkPassed : bool
             then p <- deref kubernetesProvider ;; checkK8sTapPermissions p
             else ret checkPassed) ;;
          (if checkPassed : bool
           then p <- deref kubernetesProvider ;; checkImagePullInCluster p
           else ret checkPassed)
        else
          checkPassed <-
            (if checkPassed : bool
             then p <- deref kubernetesProvider ;; checkK8sResources p
             else ret checkPassed) ;;
          (if checkPassed : bool
           then p <- deref kubernetesProvider ;; checkServerConnection p
           else ret checkPassed)) ;;
     (if checkPassed : bool
      then log Info (StatusResults true)
      else log Error (StatusResults false)) ;;
     ret checkPassed).

End Checks.

Arguments selectLoop {X} eventChan errorChan turns.

(* ================================================================== *)
(** ** Vocabulary of the specification *)

(** *** Reading a trace *)

Definition calls (tr : list Event) : list Call :=
  flat_map (fun e => match e with Called c => [c] | Logged _ _ => [] end) tr.

Definition headings (tr : list Event) : list string :=
  flat_map
    (fun e => match e with Logged _ (Heading t) => [t] | _ => [] end) tr.

Definition isShutdown (c : Call) : bool :=
  match c with ShutdownCall => true | _ => false end.

Definition isForwarderClose (c : Call) : bool :=
  match c with ForwarderCloseCall => true | _ => false end.

Definition isStartProxy (c : Call) : bool :=
  match c with StartProxyCall _ _ _ _ => true | _ => false end.

Definition isNewPortForward (c : Call) : bool :=
  match c with NewPortForwardCall _ _ _ => true | _ => false end.

Definition isNil (e : error) : bool :=
  match e with None => true | Some _ => false end.

(** *** Stages of the orchestrator *)

Inductive Stage : Type :=
| ApiStage | VersionStage
| PermissionStage | ImagePullStage
| ResourceStage | ConnectivityStage.

Definition stageTitle (s : Stage) : string :=
  match s with
  | ApiStage => "kubernetes-api"
  | VersionStage => "kubernetes-version"
  | PermissionStage => "kubernetes-permissions"
  | ImagePullStage => "image-pull-in-cluster"
  | ResourceStage => "k8s-components"
  | ConnectivityStage => "API-server-connectivity"
  end.

(** The order the specification gives for a mode. *)
Definition stageOrder (preTap : bool) : list Stage :=
  ApiStage :: VersionStage ::
  (if preTap
   then [PermissionStage; ImagePullStage]
   else [ResourceStage; ConnectivityStage]).

(** Gating as the specification words it: stages run one after the other,
    each one only if all before it returned true, and every stage that ran
    leaves its result. *)
Fixpoint runGated {X} (stages : list (Stage * M X bool))
  : M X (list (Stage * bool)) :=
  match stages with
  | [] => ret []
  | (s, m) :: rest =>
      b <- m ;;
      if b : bool
      then rs <- runGated rest ;; ret ((s, b) :: rs)
      else ret [(s, b)]
  end.

Definition laterStages (X : Externals) (cfg : Config)
  (p : Provider X) (v : SemVersion X) : list (Stage * M X bool) :=
  (VersionStage, checkKubernetesVersion X v) ::
  (if PreTap cfg
   then [(PermissionStage, checkK8sTapPermissions X cfg p);
         (ImagePullStage, checkImagePullInCluster X cfg p)]
   else [(ResourceStage, checkK8sResources X cfg p);
         (ConnectivityStage, checkServerConnection X cfg p)]).

Definition stageResults (X : Externals) (cfg : Config)
  : M X (list (Stage * bool)) :=
  r <- checkKubernetesApi X cfg ;;
  match r with
  | (Some p, Some v, true) =>
      rs <- runGated (laterStages X cfg p v) ;; ret ((ApiStage, true) :: rs)
  | _ => ret [(ApiStage, false)]
  end.

(** The embedded permission file decodes, if it decodes, to the kind the
    type assertion of [checkK8sTapPermissions] expects. *)
Definition manifestKindOk (X : Externals) (cfg : Config) : bool :=
  match ReadFile X (if IsNsRestrictedMode cfg
                    then "permissionFiles/permissions-ns-tap.yaml"
                    else "permissionFiles/permissions-all-namespaces-tap.yaml")
  with
  | Fail _ => true
  | Val data =>
      match Decode X data with
      | Fail _ => true
      | Val (RoleObject _) => IsNsRestrictedMode cfg
      | Val (ClusterRoleObject _) => negb (IsNsRestrictedMode cfg)
      | Val OtherObject => false
      end
  end.

(** *** Individual results *)

(** The specification's CheckResult, read off a log line: subject, category
    and outcome. *)
Record CheckResult : Type :=
  { subject : string; category : string; passed : bool }.

Definition resultOfMsg (m : Msg) : option CheckResult :=
  match m with
  | ResourceError n t _ | ResourceMissing n t =>
      Some {| subject := n; category := t; passed := false |}
  | ResourceExists n t =>
      Some {| subject := n; category := t; passed := true |}
  | PodError n _ | PodMissing n | PodNotRunning n =>
      Some {| subject := n; category := "pod"; passed := false |}
  | PodRunningMsg n =>
      Some {| subject := n; category := "pod"; passed := true |}
  | TappersError n _ | TappersNotRunning n _ _ =>
      Some {| subject := n; category := "pods"; passed := false |}
  | TappersRunning n _ =>
      Some {| subject := n; category := "pods"; passed := true |}
  | _ => None
  end.

Definition results (tr : list Event) : list CheckResult :=
  flat_map
    (fun e =>
       match e with
       | Logged _ m =>
           match resultOfMsg m with Some r => [r] | None => [] end
       | Called _ => []
       end) tr.

Definition entry (r : CheckResult) : string * string :=
  (subject r, category r).


Definition tapperEntry (X : Externals) : string * string :=
  (TapperPodName X, "pods").



(** *** Permission tuples *)

Definition Tuple : Type := string * string * string.

(** The (group, resource, verb) tuples of a rule list, in loop order. *)
Definition tuples (rules : list PolicyRule) : list Tuple :=
  flat_map
    (fun rule =>
       flat_map
         (fun group =>
            flat_map
              (fun resource =>
                 map (fun verb => (group, resource, verb)) (Verbs rule))
              (Resources rule))
         (APIGroups rule))
    rules.

Definition queryCount (rules : list PolicyRule) : nat :=
  list_sum
    (map (fun rule =>
            List.length (APIGroups rule) * List.length (Resources rule)
            * List.length (Verbs rule))
         rules).

(** One turn of the innermost loop of [checkPermissions]. *)
Definition permissionStep (X : Externals) (cfg : Config) (p : Provider X)
  (t : Tuple) (permissionsExist : bool) : M X bool :=
  match t with
  | (group, resource, verb) =>
      ' (exist_, err) <-
        call (CanICall (MizuResourcesNamespace cfg) resource verb group)
             (CanI X p (MizuResourcesNamespace cfg) resource verb group) ;;
      r <- checkPermissionExist X group resource verb exist_ err ;;
      ret (r && permissionsExist)
  end.

(** The answers the cluster gives when asked about the tuples one after the
    other. *)
Fixpoint queryAll (X : Externals) (cfg : Config) (p : Provider X)
  (ts : list Tuple) (w : World X) : list (bool * error) * World X :=
  match ts with
  | [] => ([], w)
  | (group, resource, verb) :: ts' =>
      let (a, w1) :=
        CanI X p (MizuResourcesNamespace cfg) resource verb group w in
      let (rest, w2) := queryAll X cfg p ts' w1 in
      (a :: rest, w2)
  end.

(** A query "returned allowed with no error". *)
Definition allowed (a : bool * error) : bool :=
  match a with
  | (true, None) => true
  | _ => false
  end.

Definition permissionReport (t : Tuple) (a : bool * error) : Event :=
  match t, a with
  | (group, resource, verb), (_, Some err) =>
      Logged Error (PermissionError verb resource group err)
  | (group, resource, verb), (false, None) =>
      Logged Error (PermissionDenied verb resource group)
  | (group, resource, verb), (true, None) =>
      Logged Info (PermissionGranted verb resource group)
  end.

Definition queryOf (cfg : Config) (t : Tuple) : Call :=
  match t with
  | (group, resource, verb) =>
      CanICall (MizuResourcesNamespace cfg) resource verb group
  end.

Definition permissionTrace (cfg : Config) (ta : Tuple * (bool * error))
  : list Event :=
  match ta with
  | ((group, resource, verb), a) =>
      [Called (CanICall (MizuResourcesNamespace cfg) resource verb group);
       permissionReport (group, resource, verb) a]
  end.

(** *** Turns of the readiness watcher *)

(** A turn that leaves the watcher watching when both channels are still
    held: a closed channel, or a pod event that converts to a pod that is
    not running. *)
Definition quiet {X : Externals} (t : Select (WatchEvent X)) : bool :=
  match t with
  | RecvEvent None => true
  | RecvEvent (Some wEvent) =>
      match ToPod X wEvent with
      | Val pod => negb (PodPhase_eqb (StatusPhase pod) PodRunning)
      | Fail _ => false
      end
  | RecvError None => true
  | RecvError (Some _) => false
  | TimerFired => false
  end.

Definition closesEvents {E} (t : Select E) : bool :=
  match t with RecvEvent None => true | _ => false end.

(** *** Removal operations swapped *)

(** The same collaborators, except for the two removal operations. *)
Definition withRemovals (X : Externals)
  (removePod : Provider X -> string -> string -> World X -> error * World X)
  (removeNamespace : Provider X -> string -> World X -> error * World X)
  : Externals :=
  {| World := World X; Provider := Provider X; SemVersion := SemVersion X;
     HttpServer := HttpServer X; PortForwarder := PortForwarder X;
     WatchEvent := WatchEvent X;
     ApiServerPodName := ApiServerPodName X;
     TapperPodName := TapperPodName X;
     ConfigMapName := ConfigMapName X;
     ServiceAccountName := ServiceAccountName X;
     RoleName := RoleName X; RoleBindingName := RoleBindingName X;
     ClusterRoleName := ClusterRoleName X;
     ClusterRoleBindingName := ClusterRoleBindingName X;
     DefaultRetries := DefaultRetries X; DefaultTimeout := DefaultTimeout X;
     GetApiServerUrl := GetApiServerUrl X;
     ValidateKubernetesVersion := ValidateKubernetesVersion X;
     IsPodRunning := IsPodRunning X; ToPod := ToPod X;
     ReadFile := ReadFile X; Decode := Decode X;
     NewProvider := NewProvider X;
     GetKubernetesVersion := GetKubernetesVersion X;
     DoesNamespaceExist := DoesNamespaceExist X;
     DoesConfigMapExist := DoesConfigMapExist X;
     DoesServiceAccountExist := DoesServiceAccountExist X;
     DoesRoleExist := DoesRoleExist X;
     DoesRoleBindingExist := DoesRoleBindingExist X;
     DoesClusterRoleExist := DoesClusterRoleExist X;
     DoesClusterRoleBindingExist := DoesClusterRoleBindingExist X;
     DoesServiceExist := DoesServiceExist X;
     ListPodsByAppLabel := ListPodsByAppLabel X;
     CanI := CanI X;
     CreateNamespace := CreateNamespace X; CreatePod := CreatePod X;
     RemovePod := removePod; RemoveNamespace := removeNamespace;
     TestConnection := TestConnection X; StartProxy := StartProxy X;
     Shutdown := Shutdown X; NewPortForward := NewPortForward X;
     ForwarderClose := ForwarderClose X;
     FilteredWatch := FilteredWatch X |}.

(* ================================================================== *)
(** ** A scripted cluster, for running the checks on concrete inputs *)

(** The world of a scripted cluster is the number of connection tests made so
    far; every other answer is fixed by the script. *)
Record Script : Type :=
  { sNewProvider : Result unit;
    sVersion : Result nat;
    sValidate : error;
    sExists : string -> bool * error;
    sServerPods : list Pod * error;
    sTapperPods : list Pod * error;
    sCanI : string -> string -> string -> bool * error;
    sManifest : Result RuntimeObject;
    sTestConnection : nat -> error;
    sStartProxy : Result unit;
    sShutdown : error;
    sNewPortForward : Result unit;
    sCreatePod : error;
    sRemovePod : error;
    sRemoveNamespace : error;
    sTurns : list (Select (Result Pod)) }.

Definition scripted (s : Script) : Externals :=
  {| World := nat; Provider := unit; SemVersion := nat;
     HttpServer := unit; PortForwarder := unit;
     WatchEvent := Result Pod;
     ApiServerPodName := "mizu-api-server";
     TapperPodName := "mizu-tapper";
     ConfigMapName := "mizu-config";
     ServiceAccountName := "mizu-service-account";
     RoleName := "mizu-role";
     RoleBindingName := "mizu-role-binding";
     ClusterRoleName := "mizu-cluster-role";
     ClusterRoleBindingName := "mizu-cluster-role-binding";
     DefaultRetries := 3; DefaultTimeout := 2;
     GetApiServerUrl := fun _ => "localhost";
     ValidateKubernetesVersion := fun _ => sValidate s;
     IsPodRunning := fun pod => PodPhase_eqb (StatusPhase pod) PodRunning;
     ToPod := fun e => e;
     ReadFile := fun _ => Val [];
     Decode := fun _ => sManifest s;
     NewProvider := fun _ _ w => (sNewProvider s, w);
     GetKubernetesVersion := fun _ w => (sVersion s, w);
     DoesNamespaceExist := fun _ n w => (sExists s "namespace", w);
     DoesConfigMapExist := fun _ _ n w => (sExists s n, w);
     DoesServiceAccountExist := fun _ _ n w => (sExists s n, w);
     DoesRoleExist := fun _ _ n w => (sExists s n, w);
     DoesRoleBindingExist := fun _ _ n w => (sExists s n, w);
     DoesClusterRoleExist := fun _ n w => (sExists s n, w);
     DoesClusterRoleBindingExist := fun _ n w => (sExists s n, w);
     DoesServiceExist := fun _ _ n w => (sExists s n, w);
     ListPodsByAppLabel := fun _ _ label w =>
       (if String.eqb label "mizu-api-server"
        then sServerPods s else sTapperPods s, w);
     CanI := fun _ _ resource verb group w => (sCanI s resource verb group, w);
     CreateNamespace := fun _ _ w => (None, w);
     CreatePod := fun _ _ _ w => (sCreatePod s, w);
     RemovePod := fun _ _ _ w => (sRemovePod s, w);
     RemoveNamespace := fun _ _ w => (sRemoveNamespace s, w);
     TestConnection := fun _ _ _ w => (sTestConnection s w, S w);
     StartProxy := fun _ _ _ _ _ w => (sStartProxy s, w);
     Shutdown := fun _ w => (sShutdown s, w);
     NewPortForward := fun _ _ _ _ w => (sNewPortForward s, w);
     ForwarderClose := fun _ w => w;
     FilteredWatch := fun _ _ _ w => (sTurns s, w) |}.

Definition runningPod (n : string) : Pod :=
  {| PodName := n; StatusPhase := PodRunning |}.

Definition pendingPod (n : string) : Pod :=
  {| PodName := n; StatusPhase := PodPending |}.

Definition tapRule : PolicyRule :=
  {| APIGroups := [""; "apps"];
     Resources := ["pods"; "services"; "daemonsets"];
     Verbs := ["list"; "create"] |}.

(** A healthy installation: everything exists, runs and answers. *)
Definition healthy : Script :=
  {| sNewProvider := Val tt;
     sVersion := Val 21;
     sValidate := None;
     sExists := fun _ => (true, None);
     sServerPods := ([runningPod "mizu-api-server"], None);
     sTapperPods := ([runningPod "tapper-a"; runningPod "tapper-b"], None);
     sCanI := fun _ _ _ => (true, None);
     sManifest := Val (ClusterRoleObject [tapRule]);
     sTestConnection := fun _ => None;
     sStartProxy := Val tt;
     sShutdown := None;
     sNewPortForward := Val tt;
     sCreatePod := None;
     sRemovePod := None;
     sRemoveNamespace := None;
     sTurns := [RecvEvent (Some (Val (pendingPod "image-pull-in-cluster")));
                RecvEvent (Some (Val (runningPod "image-pull-in-cluster")))] |}.

(** The server pod is gone; one tapper is still there and is not running. *)
Definition serverPodGone : Script :=
  {| sNewProvider := Val tt;
     sVersion := Val 21;
     sValidate := None;
     sExists := fun _ => (true, None);
     sServerPods := ([], None);
     sTapperPods := ([pendingPod "tapper-a"], None);
     sCanI := fun _ _ _ => (true, None);
     sManifest := Val (ClusterRoleObject [tapRule]);
     sTestConnection := fun _ => None;
     sStartProxy := Val tt;
     sShutdown := None;
     sNewPortForward := Val tt;
     sCreatePod := None;
     sRemovePod := None;
     sRemoveNamespace := None;
     sTurns := [] |}.

(** The API server does not answer, directly or through a tunnel. *)
Definition serverDown : Script :=
  {| sNewProvider := Val tt;
     sVersion := Val 21;
     sValidate := None;
     sExists := fun _ => (true, None);
     sServerPods := ([runningPod "mizu-api-server"], None);
     sTapperPods := ([runningPod "tapper-a"; pendingPod "tapper-b";
                      pendingPod "tapper-c"], None);
     sCanI := fun _ _ _ => (true, None);
     sManifest := Val (ClusterRoleObject [tapRule]);
     sTestConnection := fun _ => Some "connection refused";
     sStartProxy := Val tt;
     sShutdown := None;
     sNewPortForward := Val tt;
     sCreatePod := None;
     sRemovePod := Some "pod not found";
     sRemoveNamespace := Some "namespace not found";
     sTurns := [RecvEvent None; RecvError None] |}.

Definition postTap : Config :=
  {| PreTap := false;
     MizuResourcesNamespace := "mizu";
     IsNsRestrictedMode := false;
     KubeConfigPath := "~/.kube/config";
     KubeContext := "";
     GuiPort := 4899;
     ProxyHost := "127.0.0.1" |}.

Definition preTap : Config :=
  {| PreTap := true;
     MizuResourcesNamespace := "mizu";
     IsNsRestrictedMode := false;
     KubeConfigPath := "~/.kube/config";
     KubeContext := "";
     GuiPort := 4899;
     ProxyHost := "127.0.0.1" |}.

Definition withTurns (s : Script) (turns : list (Select (Result Pod)))
  : Script :=
  {| sNewProvider := sNewProvider s;
     sVersion := sVersion s;
     sValidate := sValidate s;
     sExists := sExists s;
     sServerPods := sServerPods s;
     sTapperPods := sTapperPods s;
     sCanI := sCanI s;
     sManifest := sManifest s;
     sTestConnection := sTestConnection s;
     sStartProxy := sStartProxy s;
     sShutdown := sShutdown s;
     sNewPortForward := sNewPortForward s;
     sCreatePod := sCreatePod s;
     sRemovePod := sRemovePod s;
     sRemoveNamespace := sRemoveNamespace s;
     sTurns := turns |}.

Definition probePodName : string := "image-pull-in-cluster".

Definition closesErrors {E} (t : Select E) : bool :=
  match t with RecvError None => true | _ => false end.

(** The line [checkResourceExist] logs for an answer. *)
Definition resourceReport (name type : string) (a : bool * error) : Event :=
  match a with
  | (_, Some err) => Logged Error (ResourceError name type err)
  | (false, None) => Logged Error (ResourceMissing name type)
  | (true, None) => Logged Info (ResourceExists name type)
  end.

Definition isHeading (m : Msg) : bool :=
  match m with Heading _ => true | _ => false end.

(** A computation that returns, and logs no stage heading on the way. *)
Definition quietly {X A} (m : M X A) : Prop :=
  forall w, exists a t w', m w = (Ok a, t, w') /\ headings t = [].

(** A stage: it returns, logs its heading first and no other heading. *)
Definition staged {X} (title : string) (m : M X bool) : Prop :=
  forall w, exists b t w',
    m w = (Ok b, Logged Info (Heading title) :: t, w') /\ headings t = [].

(** A watch where the error channel closes early, the pod comes up, and an
    error and the timer follow. *)
Definition pullThenError : Script :=
  withTurns healthy
    [RecvEvent (Some (Val (pendingPod probePodName)));
     RecvError None;
     RecvEvent (Some (Val (runningPod probePodName)));
     RecvError (Some (Some "watch closed"));
     TimerFired].

(** A watch that delivers an event that is not a pod before the pod comes
    up. *)
Definition malformedThenPull : Script :=
  withTurns healthy
    [RecvEvent (Some (Val (pendingPod probePodName)));
     RecvEvent (Some (Fail "unexpected object"));
     RecvEvent (Some (Val (runningPod probePodName)))].


Definition withTestConnection (s : Script) (answers : nat -> error) : Script :=
  {| sNewProvider := sNewProvider s;
     sVersion := sVersion s;
     sValidate := sValidate s;
     sExists := sExists s;
     sServerPods := sServerPods s;
     sTapperPods := sTapperPods s;
     sCanI := sCanI s;
     sManifest := sManifest s;
     sTestConnection := answers;
     sStartProxy := sStartProxy s;
     sShutdown := sShutdown s;
     sNewPortForward := sNewPortForward s;
     sCreatePod := sCreatePod s;
     sRemovePod := sRemovePod s;
     sRemoveNamespace := sRemoveNamespace s;
     sTurns := sTurns s |}.

(** The API server answers through the proxy only: the first connection test
    (direct) and the third (port-forward) fail, the second succeeds. *)
Definition proxyOnly : Script :=
  withTestConnection healthy
    (fun n => if Nat.eqb n 1 then None else Some "connection refused").

(** The cluster role binding is missing, everything else is in place. *)
Definition bindingMissing : Script :=
  {| sNewProvider := Val tt;
     sVersion := Val 21;
     sValidate := None;
     sExists := fun n =>
       (negb (String.eqb n "mizu-cluster-role-binding"), None);
     sServerPods := ([runningPod "mizu-api-server"], None);
     sTapperPods := ([], None);
     sCanI := fun _ _ _ => (true, None);
     sManifest := Val (ClusterRoleObject [tapRule]);
     sTestConnection := fun _ => None;
     sStartProxy := Val tt;
     sShutdown := None;
     sNewPortForward := Val tt;
     sCreatePod := None;
     sRemovePod := None;
     sRemoveNamespace := None;
     sTurns := [] |}.

(** *** More vocabulary for reading traces *)

Definition isTestConnection (c : Call) : bool :=
  match c with TestConnectionCall _ _ => true | _ => false end.

(** The calls only the pre-tap stages make: permission queries, and the
    creation, watching and removal of the probe pod and its namespace. *)
Definition preTapCall (c : Call) : bool :=
  match c with
  | CanICall _ _ _ _ | CreateNamespaceCall _ | CreatePodCall _ _
  | RemovePodCall _ _ | RemoveNamespaceCall _ | FilteredWatchCall _ _ => true
  | _ => false
  end.

(** The calls only the post-tap stages make: existence queries, pod listings,
    connection tests and tunnels. *)
Definition postTapCall (c : Call) : bool :=
  match c with
  | DoesNamespaceExistCall _ | DoesConfigMapExistCall _ _
  | DoesServiceAccountExistCall _ _ | DoesRoleExistCall _ _
  | DoesRoleBindingExistCall _ _ | DoesClusterRoleExistCall _
  | DoesClusterRoleBindingExistCall _ | DoesServiceExistCall _ _
  | ListPodsByAppLabelCall _ _ | TestConnectionCall _ _
  | StartProxyCall _ _ _ _ | ShutdownCall | NewPortForwardCall _ _ _
  | ForwarderCloseCall => true
  | _ => false
  end.

Definition isStatusResults (e : Event) : bool :=
  match e with Logged _ (StatusResults _) => true | _ => false end.

(** Every event of a computation satisfies [P], whether it returns or
    panics. *)
Definition always {X A} (P : Event -> bool) (m : M X A) : Prop :=
  forall w, forallb P (snd (fst (m w))) = true.

(** A condition on calls, read as a condition on events. *)
Definition onCalls (P : Call -> bool) (e : Event) : bool :=
  match e with Called c => P c | Logged _ _ => true end.

Definition notPreTap (c : Call) : bool := negb (preTapCall c).

Definition notPostTap (c : Call) : bool := negb (postTapCall c).

Definition notStatusResults (e : Event) : bool := negb (isStatusResults e).

(** The probe pod of [createImagePullInClusterResources]. *)
Definition probePod (podName : string) : ProbePod :=
  {| ObjectMetaName := podName;
     ContainerName := "probe";
     Image := "up9inc/busybox";
     ImagePullPolicy := "Always";
     Command := ["cat"];
     Stdin := true;
     TerminationGracePeriodSeconds := 0 |}.

(** *** More scripted clusters *)

Definition withManifest (s : Script) (manifest : Result RuntimeObject)
  : Script :=
  {| sNewProvider := sNewProvider s;
     sVersion := sVersion s;
     sValidate := sValidate s;
     sExists := sExists s;
     sServerPods := sServerPods s;
     sTapperPods := sTapperPods s;
     sCanI := sCanI s;
     sManifest := manifest;
     sTestConnection := sTestConnection s;
     sStartProxy := sStartProxy s;
     sShutdown := sShutdown s;
     sNewPortForward := sNewPortForward s;
     sCreatePod := sCreatePod s;
     sRemovePod := sRemovePod s;
     sRemoveNamespace := sRemoveNamespace s;
     sTurns := sTurns s |}.

(** The permission file holds a Role where a ClusterRole is asserted. *)
Definition wrongKind : Script := withManifest healthy (Val (RoleObject [tapRule])).

(** The permission file does not decode. *)
Definition undecodable : Script := withManifest healthy (Fail "yaml: line 3").

(** The same collaborators, except for [CreateNamespace]. *)
Definition withCreateNamespace (X : Externals)
  (createNamespace : Provider X -> string -> World X -> error * World X)
  : Externals :=
  {| World := World X; Provider := Provider X; SemVersion := SemVersion X;
     HttpServer := HttpServer X; PortForwarder := PortForwarder X;
     WatchEvent := WatchEvent X;
     ApiServerPodName := ApiServerPodName X;
     TapperPodName := TapperPodName X;
     ConfigMapName := ConfigMapName X;
     ServiceAccountName := ServiceAccountName X;
     RoleName := RoleName X; RoleBindingName := RoleBindingName X;
     ClusterRoleName := ClusterRoleName X;
     ClusterRoleBindingName := ClusterRoleBindingName X;
     DefaultRetries := DefaultRetries X; DefaultTimeout := DefaultTimeout X;
     GetApiServerUrl := GetApiServerUrl X;
     ValidateKubernetesVersion := ValidateKubernetesVersion X;
     IsPodRunning := IsPodRunning X; ToPod := ToPod X;
     ReadFile := ReadFile X; Decode := Decode X;
     NewProvider := NewProvider X;
     GetKubernetesVersion := GetKubernetesVersion X;
     DoesNamespaceExist := DoesNamespaceExist X;
     DoesConfigMapExist := DoesConfigMapExist X;
     DoesServiceAccountExist := DoesServiceAccountExist X;
     DoesRoleExist := DoesRoleExist X;
     DoesRoleBindingExist := DoesRoleBindingExist X;
     DoesClusterRoleExist := DoesClusterRoleExist X;
     DoesClusterRoleBindingExist := DoesClusterRoleBindingExist X;
     DoesServiceExist := DoesServiceExist X;
     ListPodsByAppLabel := ListPodsByAppLabel X;
     CanI := CanI X;
     CreateNamespace := createNamespace; CreatePod := CreatePod X;
     RemovePod := RemovePod X; RemoveNamespace := RemoveNamespace X;
     TestConnection := TestConnection X; StartProxy := StartProxy X;
     Shutdown := Shutdown X; NewPortForward := NewPortForward X;
     ForwarderClose := ForwarderClose X;
     FilteredWatch := FilteredWatch X |}.

(** A healthy cluster in which the namespace to create is already there. *)
Definition namespaceTaken : Externals :=
  withCreateNamespace (scripted healthy)
    (fun _ _ w => (Some "namespaces already exists", w)).

(** The watch reports an error after a pending pod. *)
Definition watchFails : Script :=
  withTurns healthy
    [RecvEvent (Some (Val (pendingPod probePodName)));
     RecvEvent None;
     RecvError (Some (Some "watch closed"));
     RecvEvent (Some (Val (runningPod probePodName)))].

Definition restrictedPreTap : Config :=
  {| PreTap := true;
     MizuResourcesNamespace := "team-a";
     IsNsRestrictedMode := true;
     KubeConfigPath := "~/.kube/config";
     KubeContext := "";
     GuiPort := 4899;
     ProxyHost := "127.0.0.1" |}.

(** A rule that names resources and verbs but no API group. *)
Definition groupless : PolicyRule :=
  {| APIGroups := []; Resources := ["pods"]; Verbs := ["list"] |}.

(** *** Prerequisites of a run *)

(** The client can be built, the cluster tells its version, and the version
    is accepted. *)
Definition prerequisitesHold (X : Externals) (cfg : Config) (w : World X)
  : bool :=
  match NewProvider X (KubeConfigPath cfg) (KubeContext cfg) w with
  | (Val p, w1) =>
      match GetKubernetesVersion X p w1 with
      | (Val v, _) => isNil (ValidateKubernetesVersion X v)
      | (Fail _, _) => false
      end
  | (Fail _, _) => false
  end.

Definition isPrerequisiteCall (c : Call) : bool :=
  match c with
  | NewProviderCall _ _ | GetKubernetesVersionCall | CancelCall => true
  | _ => false
  end.

(** The cluster answers, with a version that is too old. *)
Definition oldCluster : Script :=
  {| sNewProvider := Val tt;
     sVersion := Val 15;
     sValidate := Some "minimum supported version is 1.16.0";
     sExists := fun _ => (true, None);
     sServerPods := ([runningPod "mizu-api-server"], None);
     sTapperPods := ([runningPod "tapper-a"], None);
     sCanI := fun _ _ _ => (true, None);
     sManifest := Val (ClusterRoleObject [tapRule]);
     sTestConnection := fun _ => None;
     sStartProxy := Val tt;
     sShutdown := None;
     sNewPortForward := Val tt;
     sCreatePod := None;
     sRemovePod := None;
     sRemoveNamespace := None;
     sTurns := [] |}.

(** *** The timeout as the specification states it *)






(* ================================================================== *)
(** ** Running computations *)

Lemma bind_ok {X A B} (m : M X A) (f : A -> M X B) w a t1 w1 :
  m w = (Ok a, t1, w1) ->
  bind m f w = (let '(r, t2, w2) := f a w1 in (r, t1 ++ t2, w2)).
Proof. intros E. unfold bind. rewrite E. reflexivity. Qed.

Lemma bind_ok_ok {X A B} (m : M X A) (f : A -> M X B) w a t1 w1 r t2 w2 :
  m w = (Ok a, t1, w1) -> f a w1 = (r, t2, w2) ->
  bind m f w = (r, t1 ++ t2, w2).
Proof. intros E F. rewrite (bind_ok _ _ _ _ _ _ E), F. reflexivity. Qed.

Lemma bind_assoc {X A B C} (m : M X A) (f : A -> M X B) (g : B -> M X C) w :
  bind (bind m f) g w = bind m (fun a => bind (f a) g) w.
Proof.
  unfold bind. destruct (m w) as [[[a|s] t1] w1]; [|reflexivity].
  destruct (f a w1) as [[[b|s] t2] w2]; [|reflexivity].
  destruct (g b w2) as [[r t3] w3]. now rewrite app_assoc.
Qed.

Lemma bind_ret_l {X A B} (a : A) (f : A -> M X B) w :
  bind (ret a) f w = f a w.
Proof. unfold bind, ret. now destruct (f a w) as [[r t] w']. Qed.

Lemma bind_ext {X A B} (m : M X A) (f g : A -> M X B) w :
  (forall a w', f a w' = g a w') -> bind m f w = bind m g w.
Proof.
  intros H. unfold bind. destruct (m w) as [[[a|s] t1] w1]; [|reflexivity].
  now rewrite H.
Qed.

Lemma bind_log {X B} (l : Level) (m : Msg) (f : unit -> M X B) w :
  bind (log l m) f w
  = (let '(r, t, w') := f tt w in (r, Logged l m :: t, w')).
Proof. reflexivity. Qed.

Lemma bind_call {X A B} (c : Call) (op : World X -> A * World X)
  (f : A -> M X B) w :
  bind (call c op) f w
  = (let (a, w1) := op w in
     let '(r, t, w') := f a w1 in (r, Called c :: t, w')).
Proof. unfold bind, call. now destruct (op w). Qed.

(** *** Loops *)

Lemma forEach_ext {X A S} (l : list A) (b1 b2 : A -> S -> M X S) :
  (forall x acc w, b1 x acc w = b2 x acc w) ->
  forall acc w, forEach l b1 acc w = forEach l b2 acc w.
Proof.
  intros H. induction l as [|x l IH]; intros acc w; simpl; [reflexivity|].
  unfold bind. rewrite H.
  destruct (b2 x acc w) as [[[a|s] t1] w1]; [|reflexivity].
  now rewrite IH.
Qed.

Lemma forEach_app {X A S} (l1 l2 : list A) (body : A -> S -> M X S) :
  forall acc w,
    forEach (l1 ++ l2) body acc w
    = bind (forEach l1 body acc) (forEach l2 body) w.
Proof.
  induction l1 as [|x l1 IH]; intros acc w; simpl.
  - now rewrite bind_ret_l.
  - rewrite bind_assoc. apply bind_ext. intros a w'. apply IH.
Qed.

Lemma forEach_flat_map {X A B S} (f : A -> list B) (l : list A)
  (body : B -> S -> M X S) :
  forall acc w,
    forEach l (fun x acc => forEach (f x) body acc) acc w
    = forEach (flat_map f l) body acc w.
Proof.
  induction l as [|x l IH]; intros acc w; simpl; [reflexivity|].
  rewrite forEach_app. apply bind_ext. intros a w'. apply IH.
Qed.

Lemma forEach_map {X A B S} (f : A -> B) (l : list A)
  (body : B -> S -> M X S) :
  forall acc w,
    forEach (map f l) body acc w = forEach l (fun x => body (f x)) acc w.
Proof.
  induction l as [|x l IH]; intros acc w; simpl; [reflexivity|].
  apply bind_ext. intros a w'. apply IH.
Qed.

(* ================================================================== *)
(** ** Permission verifier *)

Section Permissions.

Variable X : Externals.
Variable cfg : Config.
Variable p : Provider X.

Lemma checkPermissions_tuples rules w :
  checkPermissions X cfg p rules w
  = forEach (tuples rules) (permissionStep X cfg p) true w.
Proof.
  unfold checkPermissions, tuples.
  rewrite <- forEach_flat_map. apply forEach_ext. intros rule acc w1.
  rewrite <- forEach_flat_map. apply forEach_ext. intros group acc1 w2.
  rewrite <- forEach_flat_map. apply forEach_ext. intros resource acc2 w3.
  rewrite forEach_map. reflexivity.
Qed.

Lemma permissionStep_run group resource verb acc w :
  permissionStep X cfg p (group, resource, verb) acc w
  = (let (a, w1) :=
       CanI X p (MizuResourcesNamespace cfg) resource verb group w in
     (Ok (allowed a && acc), permissionTrace cfg ((group, resource, verb), a),
      w1)).
Proof.
  unfold permissionStep, bind, call, checkPermissionExist, log, ret.
  destruct (CanI X p _ resource verb group w) as [[e err] w1].
  destruct err as [err|]; [destruct e|destruct e]; reflexivity.
Qed.

Lemma forEach_permissionStep ts :
  forall acc w,
    forEach ts (permissionStep X cfg p) acc w
    = (let (answers, w') := queryAll X cfg p ts w in
       (Ok (forallb allowed answers && acc),
        flat_map (permissionTrace cfg) (combine ts answers), w')).
Proof.
  induction ts as [|[[group resource] verb] ts IH]; intros acc w.
  - reflexivity.
  - cbn [forEach queryAll]. unfold bind at 1.
    rewrite permissionStep_run.
    destruct (CanI X p _ resource verb group w) as [a w1].
    rewrite IH. destruct (queryAll X cfg p ts w1) as [answers w2].
    cbn [forallb combine flat_map]. f_equal. f_equal.
    f_equal. destruct (allowed a), (forallb allowed answers), acc; reflexivity.
Qed.

Lemma queryAll_length ts :
  forall w, length (fst (queryAll X cfg p ts w)) = length ts.
Proof.
  induction ts as [|[[g r] v] ts IH]; intros w; [reflexivity|].
  cbn [queryAll]. destruct (CanI X p _ r v g w) as [a w1].
  specialize (IH w1). destruct (queryAll X cfg p ts w1) as [rest w2].
  simpl in *. now rewrite IH.
Qed.

End Permissions.

Lemma length_flat_map_const {A B} (f : A -> list B) (n : nat) (l : list A) :
  (forall x, length (f x) = n) -> length (flat_map f l) = length l * n.
Proof.
  intros H. induction l as [|x l IH]; [reflexivity|].
  cbn [flat_map length]. rewrite length_app, H, IH. simpl. lia.
Qed.

Lemma tuples_length rules : length (tuples rules) = queryCount rules.
Proof.
  unfold tuples, queryCount. rewrite length_flat_map. f_equal.
  apply map_ext. intros rule.
  rewrite (length_flat_map_const _
             (length (Resources rule) * length (Verbs rule))).
  - lia.
  - intros group.
    apply length_flat_map_const. intros resource. apply length_map.
Qed.

Lemma forallb_allowed answers :
  forallb allowed answers = true <->
  (forall a, In a answers -> a = (true, None)).
Proof.
  rewrite forallb_forall. split; intros H a Ha.
  - specialize (H a Ha).
    destruct a as [[|] [e|]]; simpl in H; try discriminate H; reflexivity.
  - now rewrite (H a Ha).
Qed.

Lemma calls_permissionTrace cfg (ts : list Tuple) :
  forall answers : list (bool * error),
    length answers = length ts ->
    calls (flat_map (permissionTrace cfg) (combine ts answers))
    = map (queryOf cfg) ts.
Proof.
  induction ts as [|[[g r] v] ts IH]; intros [|a l] E; try discriminate;
    [reflexivity|].
  injection E as E. cbn [combine flat_map map]. rewrite <- (IH l E).
  destruct a as [[|] [e|]]; reflexivity.
Qed.

(** C3.  [checkPermissions] asks the cluster once for every (group,
    resource, verb) tuple of every rule, in loop order and without dropping
    tuples that occur twice: its trace is, for each tuple in turn, the [CanI]
    query followed by the line reporting the answer to it; the calls it makes
    are exactly these queries, and their number is the sum over the rules of
    groups times resources times verbs; and it returns true exactly when
    every answer was "allowed" with a nil error. *)
Theorem checkPermissions_queries :
  forall (X : Externals) (cfg : Config) (p : Provider X)
         (rules : list PolicyRule) (w : World X),
    let answers := fst (queryAll X cfg p (tuples rules) w) in
    let run := checkPermissions X cfg p rules w in
    run = (Ok (forallb allowed answers),
           flat_map (permissionTrace cfg) (combine (tuples rules) answers),
           snd (queryAll X cfg p (tuples rules) w))
    /\ calls (snd (fst run)) = map (queryOf cfg) (tuples rules)
    /\ length (calls (snd (fst run))) = queryCount rules
    /\ length answers = queryCount rules
    /\ (forallb allowed answers = true <->
        forall a, In a answers -> a = (true, None)).
Proof.
  intros X cfg p rules w answers run.
  assert (L : length answers = length (tuples rules)).
  { unfold answers. apply queryAll_length. }
  assert (R : run = (Ok (forallb allowed answers),
                     flat_map (permissionTrace cfg)
                              (combine (tuples rules) answers),
                     snd (queryAll X cfg p (tuples rules) w))).
  { unfold run. rewrite checkPermissions_tuples, forEach_permissionStep.
    unfold answers. destruct (queryAll X cfg p (tuples rules) w).
    simpl. now rewrite andb_true_r. }
  assert (C : calls (snd (fst run)) = map (queryOf cfg) (tuples rules)).
  { rewrite R. cbn [fst snd]. now apply calls_permissionTrace. }
  repeat split.
  - exact R.
  - exact C.
  - now rewrite C, length_map, tuples_length.
  - now rewrite L, tuples_length.
  - apply forallb_allowed.
  - apply forallb_allowed.
Qed.

(* ================================================================== *)
(** ** Readiness watcher *)

Section Watcher.

Variable X : Externals.

Local Abbreviation Turn := (Select (WatchEvent X)).

(** Quiet turns are passed over; all they can do is close channels. *)
Lemma selectLoop_quiet (pre rest : list Turn) :
  forallb quiet pre = true ->
  forall eventChan errorChan,
    selectLoop eventChan errorChan (pre ++ rest)
    = selectLoop (eventChan && negb (existsb closesEvents pre))
                 (errorChan && negb (existsb closesErrors pre)) rest.
Proof.
  induction pre as [|t pre IH]; intros Q eventChan errorChan.
  - simpl. now rewrite !andb_true_r.
  - cbn [forallb] in Q. apply andb_true_iff in Q as [Qt Q].
    specialize (IH Q).
    destruct t as [[wEvent|]|[err|]|]; cbn [quiet] in Qt; try discriminate;
      cbn [app selectLoop existsb closesEvents closesErrors orb].
    + destruct (ToPod X wEvent) as [pod|e]; [|discriminate].
      apply negb_true_iff in Qt. rewrite Qt.
      destruct eventChan; apply IH.
    + destruct eventChan; rewrite IH; cbn [negb andb];
        now rewrite ?andb_false_r.
    + destruct errorChan; rewrite IH; cbn [negb andb];
        now rewrite ?andb_false_r.
Qed.


Lemma checkImagePulled_run cfg p podName w turns w1 :
  FilteredWatch X p ("^" ++ podName ++ "$")%string
                [MizuResourcesNamespace cfg] w = (turns, w1) ->
  checkImagePulled X cfg p podName w
  = (Ok (fst (selectLoop true true turns)),
     [Called (FilteredWatchCall ("^" ++ podName ++ "$")%string
                                [MizuResourcesNamespace cfg])], w1).
Proof.
  intros E. unfold checkImagePulled, bind, call, ret. now rewrite E.
Qed.

End Watcher.

(** C4.  Let the watch deliver some quiet turns that leave the event channel
    open, then a pod event whose pod is in phase Running, then anything at
    all.  The select loop returns nil at that event and leaves every later
    turn unconsumed, errors and the timer included; [checkImagePulled]
    returns nil. *)
Theorem checkImagePulled_running_wins :
  forall (X : Externals) (cfg : Config) (p : Provider X) (podName : string)
         (w w1 : World X) (pre post : list (Select (WatchEvent X)))
         (wEvent : WatchEvent X) (pod : Pod),
    FilteredWatch X p ("^" ++ podName ++ "$")%string
                  [MizuResourcesNamespace cfg] w
    = (pre ++ RecvEvent (Some wEvent) :: post, w1) ->
    forallb quiet pre = true ->
    existsb closesEvents pre = false ->
    ToPod X wEvent = Val pod ->
    StatusPhase pod = PodRunning ->
    selectLoop true true (pre ++ RecvEvent (Some wEvent) :: post)
    = (None, post)
    /\ fst (fst (checkImagePulled X cfg p podName w)) = Ok None.
Proof.
  intros X cfg p podName w w1 pre post wEvent pod EW Q NC EP ER.
  assert (L : selectLoop true true (pre ++ RecvEvent (Some wEvent) :: post)
              = (None, post)).
  { rewrite (selectLoop_quiet X pre _ Q), NC.
    cbn [negb andb selectLoop]. now rewrite EP, ER. }
  split; [exact L|].
  rewrite (checkImagePulled_run X cfg p podName w _ w1 EW), L. reflexivity.
Qed.

(** C10.  Let the watch deliver some quiet turns that leave the event channel
    open, then an event that [ToPod] cannot convert.  The select loop returns
    the conversion error at that event, and [checkImagePulled] returns it,
    whatever the later turns are: a Running pod among them is never looked
    at. *)
Theorem checkImagePulled_malformed_event :
  forall (X : Externals) (cfg : Config) (p : Provider X) (podName : string)
         (w w1 : World X) (pre post : list (Select (WatchEvent X)))
         (wEvent : WatchEvent X) (err : Err),
    FilteredWatch X p ("^" ++ podName ++ "$")%string
                  [MizuResourcesNamespace cfg] w
    = (pre ++ RecvEvent (Some wEvent) :: post, w1) ->
    forallb quiet pre = true ->
    existsb closesEvents pre = false ->
    ToPod X wEvent = Fail err ->
    selectLoop true true (pre ++ RecvEvent (Some wEvent) :: post)
    = (Some err, post)
    /\ fst (fst (checkImagePulled X cfg p podName w)) = Ok (Some err).
Proof.
  intros X cfg p podName w w1 pre post wEvent err EW Q NC EP.
  assert (L : selectLoop true true (pre ++ RecvEvent (Some wEvent) :: post)
              = (Some err, post)).
  { rewrite (selectLoop_quiet X pre _ Q), NC.
    cbn [negb andb selectLoop]. now rewrite EP. }
  split; [exact L|].
  rewrite (checkImagePulled_run X cfg p podName w _ w1 EW), L. reflexivity.
Qed.



(* ================================================================== *)
(** ** Connectivity *)

Section Connectivity.

Variable X : Externals.
Variable cfg : Config.
Variable p : Provider X.

Local Abbreviation ns := (MizuResourcesNamespace cfg).

Lemma checkProxy_run serverUrl w :
  checkProxy X cfg serverUrl p w
  = (let (r, w1) :=
       StartProxy X p (ProxyHost cfg) (GuiPort cfg) ns (ApiServerPodName X) w
     in
     let start :=
       Called (StartProxyCall (ProxyHost cfg) (GuiPort cfg) ns
                              (ApiServerPodName X)) in
     let probe := Called (TestConnectionCall serverUrl (DefaultRetries X)) in
     match r with
     | Fail err => (Ok (Some err), [start; Called CancelCall], w1)
     | Val httpServer =>
         let (e, w2) :=
           TestConnection X serverUrl (DefaultRetries X) (DefaultTimeout X) w1
         in
         match e with
         | Some err => (Ok (Some err), [start; probe; Called CancelCall], w2)
         | None =>
             let (s, w3) := Shutdown X httpServer w2 in
             (Ok None,
              [start; probe; Called ShutdownCall] ++
              match s with
              | Some err => [Logged Debug (ProxyStopError err)]
              | None => []
              end ++ [Called CancelCall], w3)
         end
     end).
Proof.
  unfold checkProxy, defer, bind, call, cancel, ret, log.
  destruct (StartProxy X p _ _ _ _ w) as [[httpServer|err] w1];
    [|reflexivity].
  destruct (TestConnection X serverUrl _ _ w1) as [[err|] w2]; [reflexivity|].
  destruct (Shutdown X httpServer w2) as [[err|] w3]; reflexivity.
Qed.

Lemma checkPortForward_run serverUrl w :
  checkPortForward X cfg serverUrl p w
  = (let (r, w1) :=
       NewPortForward X p ns (ApiServerPodName X) (GuiPort cfg) w in
     let start :=
       Called (NewPortForwardCall ns (ApiServerPodName X) (GuiPort cfg)) in
     let probe := Called (TestConnectionCall serverUrl (DefaultRetries X)) in
     match r with
     | Fail err => (Ok (Some err), [start; Called CancelCall], w1)
     | Val forwarder =>
         let (e, w2) :=
           TestConnection X serverUrl (DefaultRetries X) (DefaultTimeout X) w1
         in
         match e with
         | Some err => (Ok (Some err), [start; probe; Called CancelCall], w2)
         | None =>
             (Ok None,
              [start; probe; Called ForwarderCloseCall; Called CancelCall],
              ForwarderClose X forwarder w2)
         end
     end).
Proof.
  unfold checkPortForward, defer, bind, call, cancel, ret.
  destruct (NewPortForward X p _ _ _ w) as [[forwarder|err] w1];
    [|reflexivity].
  destruct (TestConnection X serverUrl _ _ w1) as [[err|] w2]; reflexivity.
Qed.

Lemma checkProxy_returns serverUrl w :
  exists e t w1,
    checkProxy X cfg serverUrl p w = (Ok e, t, w1)
    /\ hd_error (calls t)
       = Some (StartProxyCall (ProxyHost cfg) (GuiPort cfg) ns
                              (ApiServerPodName X)).
Proof.
  rewrite checkProxy_run.
  destruct (StartProxy X p _ _ _ _ w) as [[httpServer|err] w1];
    [|now eauto].
  destruct (TestConnection X serverUrl _ _ w1) as [[err|] w2]; [now eauto|].
  destruct (Shutdown X httpServer w2) as [[err|] w3]; now eauto.
Qed.

Lemma checkPortForward_returns serverUrl w :
  exists e t w1,
    checkPortForward X cfg serverUrl p w = (Ok e, t, w1)
    /\ hd_error (calls t)
       = Some (NewPortForwardCall ns (ApiServerPodName X) (GuiPort cfg)).
Proof.
  rewrite checkPortForward_run.
  destruct (NewPortForward X p _ _ _ w) as [[forwarder|err] w1];
    [|now eauto].
  destruct (TestConnection X serverUrl _ _ w1) as [[err|] w2]; now eauto.
Qed.

End Connectivity.

(** C6.  [checkServerConnection] first tests the direct connection.  If that
    succeeds it returns true at once: the trace holds the heading, the one
    connection test and the success line, and no tunnel is started.  If it
    fails, [checkProxy] runs, and then [checkPortForward] runs from the world
    [checkProxy] left, whatever [checkProxy] returned; each starts its tunnel;
    and the result is true exactly when one of the two returned nil. *)
Theorem checkServerConnection_any_transport :
  forall (X : Externals) (cfg : Config) (p : Provider X) (w : World X),
    let serverUrl := GetApiServerUrl X (GuiPort cfg) in
    let direct := TestConnection X serverUrl 1 (DefaultTimeout X) w in
    let head :=
      [Logged Info (Heading "API-server-connectivity");
       Called (TestConnectionCall serverUrl 1)] in
    match fst direct with
    | None =>
        checkServerConnection X cfg p w
        = (Ok true, head ++ [Logged Info TunnelAvailable], snd direct)
    | Some _ =>
        exists (viaProxy viaPortForward : error) (tp tf : list Event)
               (wp wf : World X),
        checkProxy X cfg serverUrl p (snd direct) = (Ok viaProxy, tp, wp)
        /\ checkPortForward X cfg serverUrl p wp = (Ok viaPortForward, tf, wf)
        /\ existsb isStartProxy (calls tp) = true
        /\ existsb isNewPortForward (calls tf) = true
        /\ checkServerConnection X cfg p w
           = (Ok (isNil viaProxy || isNil viaPortForward),
              head ++ tp ++
              [match viaProxy with
               | Some err => Logged Error (ProxyFailed err)
               | None => Logged Info ProxyConnected
               end] ++ tf ++
              [match viaPortForward with
               | Some err => Logged Error (PortForwardFailed err)
               | None => Logged Info PortForwardConnected
               end], wf)
    end.
Proof.
  intros X cfg p w serverUrl direct head.
  unfold checkServerConnection. fold serverUrl.
  rewrite bind_log, bind_call. subst direct head.
  destruct (TestConnection X serverUrl 1 (DefaultTimeout X) w)
    as [[err|] w1]; cbn [fst snd]; [|reflexivity].
  destruct (checkProxy_returns X cfg p serverUrl w1)
    as (ep & tp & wp & EP & HP).
  destruct (checkPortForward_returns X cfg p serverUrl wp)
    as (ef & tf & wf & EF & HF).
  exists ep, ef, tp, tf, wp, wf.
  split; [exact EP|]. split; [exact EF|].
  split; [destruct (calls tp) as [|c cs]; [discriminate|];
          injection HP as ->; reflexivity|].
  split; [destruct (calls tf) as [|c cs]; [discriminate|];
          injection HF as ->; reflexivity|].
  unfold bind. rewrite EP.
  destruct ep as [e1|]; unfold log, ret; rewrite EF;
    destruct ef as [e2|]; cbn [isNil orb app];
    rewrite ?app_nil_r, <- ?app_assoc; reflexivity.
Qed.

(** C7.  Where the claim fails on the code: when the tunnel has been opened
    and the probe through it fails, [checkProxy] returns the probe's error
    after the deferred [cancel] alone, without a call to [Shutdown], and
    [checkPortForward] returns it without a call to the forwarder's [Close];
    the handle is still open when the attempt returns. *)
Theorem tunnel_left_open_on_probe_failure :
  forall (X : Externals) (cfg : Config) (p : Provider X) (serverUrl : string)
         (w w1 w2 v v1 v2 : World X)
         (httpServer : HttpServer X) (forwarder : PortForwarder X)
         (err err' : Err),
    StartProxy X p (ProxyHost cfg) (GuiPort cfg) (MizuResourcesNamespace cfg)
               (ApiServerPodName X) w = (Val httpServer, w1) ->
    TestConnection X serverUrl (DefaultRetries X) (DefaultTimeout X) w1
    = (Some err, w2) ->
    NewPortForward X p (MizuResourcesNamespace cfg) (ApiServerPodName X)
                   (GuiPort cfg) v = (Val forwarder, v1) ->
    TestConnection X serverUrl (DefaultRetries X) (DefaultTimeout X) v1
    = (Some err', v2) ->
    (exists t,
        checkProxy X cfg serverUrl p w = (Ok (Some err), t, w2)
        /\ existsb isStartProxy (calls t) = true
        /\ existsb isShutdown (calls t) = false)
    /\ (exists t,
           checkPortForward X cfg serverUrl p v = (Ok (Some err'), t, v2)
           /\ existsb isNewPortForward (calls t) = true
           /\ existsb isForwarderClose (calls t) = false).
Proof.
  intros X cfg p serverUrl w w1 w2 v v1 v2 httpServer forwarder err err'
         ES EP EF EQ.
  split.
  - rewrite checkProxy_run, ES, EP. eexists. split; [reflexivity|].
    split; reflexivity.
  - rewrite checkPortForward_run, EF, EQ. eexists. split; [reflexivity|].
    split; reflexivity.
Qed.

(* ================================================================== *)
(** ** Image pull *)

Section ImagePull.

Variable X : Externals.
Variable cfg : Config.
Variable p : Provider X.

Local Abbreviation ns := (MizuResourcesNamespace cfg).

Lemma removeImagePullInClusterResources_returns podName w :
  exists t w1,
    removeImagePullInClusterResources X cfg p podName w = (Ok tt, t, w1)
    /\ calls t
       = RemovePodCall ns podName ::
         (if IsNsRestrictedMode cfg then [] else [RemoveNamespaceCall ns]).
Proof.
  unfold removeImagePullInClusterResources. rewrite bind_call.
  destruct (RemovePod X p ns podName w) as [e1 w1].
  destruct (IsNsRestrictedMode cfg); cbn [negb].
  - destruct e1 as [e1|]; do 2 eexists; split; reflexivity.
  - unfold bind, call, log, ret.
    destruct e1 as [e1|];
      destruct (RemoveNamespace X p ns w1) as [[e2|] w2];
      do 2 eexists; split; reflexivity.
Qed.

Lemma createImagePullInClusterResources_returns podName w :
  exists e t w1,
    createImagePullInClusterResources X cfg p podName w = (Ok e, t, w1).
Proof.
  unfold createImagePullInClusterResources, bind, call, ret.
  destruct (IsNsRestrictedMode cfg); cbn [negb].
  - destruct (CreatePod X p ns _ w) as [[e|] w1]; now eauto.
  - destruct (CreateNamespace X p ns w) as [[e|] w1]; [now eauto|].
    destruct (CreatePod X p ns _ w1) as [[e|] w2]; now eauto.
Qed.

Lemma checkImagePullInClusterBody_returns podName w :
  exists b t w1,
    checkImagePullInClusterBody X cfg p podName w = (Ok b, t, w1).
Proof.
  unfold checkImagePullInClusterBody.
  destruct (createImagePullInClusterResources_returns podName w)
    as (e & t & w1 & E).
  rewrite (bind_ok _ _ _ _ _ _ E).
  destruct e as [e|]; [unfold bind, log, ret; now eauto|].
  unfold checkImagePulled. rewrite bind_assoc, bind_call.
  destruct (FilteredWatch X p _ _ w1) as [turns w2].
  rewrite bind_ret_l.
  destruct (fst (selectLoop true true turns)) as [e|];
    unfold bind, log, ret; now eauto.
Qed.

End ImagePull.

(** C8.  [checkImagePullInCluster] always returns, and what it returns is
    what its body returned: after the body, on each of its three exits, the
    deferred [removeImagePullInClusterResources] runs and calls [RemovePod]
    for the probe pod and then, unless the namespace is restricted,
    [RemoveNamespace]; and replacing the two removal operations by any others,
    failing ones included, leaves the verdict as it is. *)
Theorem checkImagePullInCluster_always_removes :
  forall (X : Externals) (cfg : Config) (p : Provider X) (w : World X),
  exists (verdict : bool) (tb tr : list Event) (wb wr : World X),
    checkImagePullInClusterBody X cfg p "image-pull-in-cluster" w
    = (Ok verdict, tb, wb)
    /\ removeImagePullInClusterResources X cfg p "image-pull-in-cluster" wb
       = (Ok tt, tr, wr)
    /\ checkImagePullInCluster X cfg p w
       = (Ok verdict,
          Logged Info (Heading "image-pull-in-cluster") :: tb ++ tr, wr)
    /\ calls tr
       = RemovePodCall (MizuResourcesNamespace cfg) "image-pull-in-cluster" ::
         (if IsNsRestrictedMode cfg
          then []
          else [RemoveNamespaceCall (MizuResourcesNamespace cfg)])
    /\ (forall removePod removeNamespace,
           fst (fst (checkImagePullInCluster
                       (withRemovals X removePod removeNamespace) cfg p w))
           = Ok verdict).
Proof.
  intros X cfg p w.
  destruct (checkImagePullInClusterBody_returns X cfg p
              "image-pull-in-cluster" w) as (b & tb & wb & EB).
  destruct (removeImagePullInClusterResources_returns X cfg p
              "image-pull-in-cluster" wb) as (tr & wr & ER & CR).
  exists b, tb, tr, wb, wr.
  split; [exact EB|]. split; [exact ER|].
  split; [|split; [exact CR|]].
  - unfold checkImagePullInCluster. rewrite bind_log.
    unfold defer. now rewrite EB, ER.
  - intros removePod removeNamespace.
    unfold checkImagePullInCluster. rewrite bind_log. unfold defer.
    change (checkImagePullInClusterBody
              (withRemovals X removePod removeNamespace) cfg p
              "image-pull-in-cluster" w)
      with (checkImagePullInClusterBody X cfg p "image-pull-in-cluster" w).
    rewrite EB.
    destruct (removeImagePullInClusterResources_returns
                (withRemovals X removePod removeNamespace) cfg p
                "image-pull-in-cluster" wb) as (tr' & wr' & ER' & _).
    now rewrite ER'.
Qed.

(* ================================================================== *)
(** ** Pods of the installation *)

Lemma countTappers_counts (X : Externals) (pods : list Pod) :
  countTappers X pods
  = (length pods,
     length (filter (fun pod => negb (IsPodRunning X pod)) pods)).
Proof.
  unfold countTappers.
  assert (G : forall t n,
             fold_left
               (fun (c : nat * nat) (pod : Pod) =>
                  let (tappers, notRunningTappers) := c in
                  (tappers + 1,
                   if negb (IsPodRunning X pod)
                   then notRunningTappers + 1 else notRunningTappers))
               pods (t, n)
             = (t + length pods,
                n + length (filter (fun pod => negb (IsPodRunning X pod))
                                   pods))).
  { induction pods as [|pod pods IH]; intros t n; cbn [fold_left filter].
    - simpl. f_equal; lia.
    - rewrite IH. destruct (negb (IsPodRunning X pod)); simpl; f_equal; lia. }
  apply G.
Qed.

(** C9.  When the server pod is listed and running and the listing of the
    tapper pods succeeds with N pods of which k are not running,
    [checkPodResourcesExist] returns false exactly when k is positive, and
    then logs k out of N; with k zero it logs success, and in particular an
    empty listing passes. *)
Theorem checkPodResourcesExist_tappers :
  forall (X : Externals) (cfg : Config) (p : Provider X) (w w1 w2 : World X)
         (pod0 : Pod) (others pods : list Pod),
    ListPodsByAppLabel X p (MizuResourcesNamespace cfg) (ApiServerPodName X) w
    = ((pod0 :: others, None), w1) ->
    IsPodRunning X pod0 = true ->
    ListPodsByAppLabel X p (MizuResourcesNamespace cfg) (TapperPodName X) w1
    = ((pods, None), w2) ->
    let N := length pods in
    let k := length (filter (fun pod => negb (IsPodRunning X pod)) pods) in
    checkPodResourcesExist X cfg p w
    = (Ok (negb (0 <? k)%nat),
       [Called (ListPodsByAppLabelCall (MizuResourcesNamespace cfg)
                                       (ApiServerPodName X));
        Logged Info (PodRunningMsg (ApiServerPodName X));
        Called (ListPodsByAppLabelCall (MizuResourcesNamespace cfg)
                                       (TapperPodName X));
        if (0 <? k)%nat
        then Logged Error (TappersNotRunning (TapperPodName X) k N)
        else Logged Info (TappersRunning (TapperPodName X) N)], w2)
    /\ (pods = [] ->
        checkPodResourcesExist X cfg p w
        = (Ok true,
           [Called (ListPodsByAppLabelCall (MizuResourcesNamespace cfg)
                                           (ApiServerPodName X));
            Logged Info (PodRunningMsg (ApiServerPodName X));
            Called (ListPodsByAppLabelCall (MizuResourcesNamespace cfg)
                                           (TapperPodName X));
            Logged Info (TappersRunning (TapperPodName X) 0)], w2)).
Proof.
  intros X cfg p w w1 w2 pod0 others pods ES R0 ET N k.
  assert (G : checkPodResourcesExist X cfg p w
              = (Ok (negb (0 <? k)%nat),
                 [Called (ListPodsByAppLabelCall (MizuResourcesNamespace cfg)
                                                 (ApiServerPodName X));
                  Logged Info (PodRunningMsg (ApiServerPodName X));
                  Called (ListPodsByAppLabelCall (MizuResourcesNamespace cfg)
                                                 (TapperPodName X));
                  if (0 <? k)%nat
                  then Logged Error (TappersNotRunning (TapperPodName X) k N)
                  else Logged Info (TappersRunning (TapperPodName X) N)],
                 w2)).
  { unfold checkPodResourcesExist. rewrite bind_call, ES, R0.
    cbn [negb]. rewrite bind_log, bind_call, ET, countTappers_counts.
    fold k N. destruct (0 <? k)%nat; reflexivity. }
  split; [exact G|].
  intros E. rewrite G. subst k N. rewrite E. reflexivity.
Qed.

(* ================================================================== *)
(** ** Resource existence *)

Lemma results_app (t1 t2 : list Event) :
  results (t1 ++ t2) = results t1 ++ results t2.
Proof. apply flat_map_app. Qed.

Lemma results_resourceReport name type a tr :
  results (resourceReport name type a :: tr)
  = {| subject := name; category := type; passed := allowed a |}
    :: results tr.
Proof. destruct a as [[|] [e|]]; reflexivity. Qed.

Lemma bind_check {X B} name type exist err (f : bool -> M X B) w :
  bind (checkResourceExist X name type exist err) f w
  = (let '(r, t, w') := f (allowed (exist, err)) w in
     (r, resourceReport name type (exist, err) :: t, w')).
Proof.
  unfold checkResourceExist.
  destruct err as [e|]; destruct exist; cbn [negb];
    rewrite bind_assoc, bind_log, bind_ret_l; reflexivity.
Qed.

Section Resources.

Variable X : Externals.
Variable cfg : Config.
Variable p : Provider X.

Local Abbreviation ns := (MizuResourcesNamespace cfg).

(** The pod part of the stage: the server pod is always reported; the tapper
    pods are listed and reported exactly when the server pod passed. *)
Lemma checkPodResourcesExist_results w :
  exists b t w' server tappers,
    checkPodResourcesExist X cfg p w = (Ok b, t, w')
    /\ results t = server :: tappers
    /\ entry server = (ApiServerPodName X, "pod")
    /\ map entry tappers = (if passed server then [tapperEntry X] else [])
    /\ b = forallb passed (server :: tappers)
    /\ calls t
       = ListPodsByAppLabelCall ns (ApiServerPodName X) ::
         (if passed server
          then [ListPodsByAppLabelCall ns (TapperPodName X)] else [])
    /\ headings t = [].
Proof.
  unfold checkPodResourcesExist. rewrite bind_call.
  destruct (ListPodsByAppLabel X p ns (ApiServerPodName X) w)
    as [[pods [err|]] w1]; cbv beta iota.
  { rewrite bind_log. cbn.
    now exists false, [Called (ListPodsByAppLabelCall ns (ApiServerPodName X));
                  Logged Error (PodError (ApiServerPodName X) err)], w1,
      {| subject := ApiServerPodName X; category := "pod"; passed := false |},
      []. }
  destruct pods as [|pod0 others].
  { rewrite bind_log. cbn.
    now exists false, [Called (ListPodsByAppLabelCall ns (ApiServerPodName X));
                  Logged Error (PodMissing (ApiServerPodName X))], w1,
      {| subject := ApiServerPodName X; category := "pod"; passed := false |},
      []. }
  destruct (IsPodRunning X pod0); cbn [negb].
  2:{ rewrite bind_log. cbn.
      now exists false,
        [Called (ListPodsByAppLabelCall ns (ApiServerPodName X));
         Logged Error (PodNotRunning (ApiServerPodName X))], w1,
        {| subject := ApiServerPodName X; category := "pod";
           passed := false |}, []. }
  rewrite bind_log, bind_call.
  destruct (ListPodsByAppLabel X p ns (TapperPodName X) w1)
    as [[tpods [err|]] w2]; cbv beta iota.
  { rewrite bind_log. cbn.
    now exists false,
      [Called (ListPodsByAppLabelCall ns (ApiServerPodName X));
       Logged Info (PodRunningMsg (ApiServerPodName X));
       Called (ListPodsByAppLabelCall ns (TapperPodName X));
       Logged Error (TappersError (TapperPodName X) err)], w2,
      {| subject := ApiServerPodName X; category := "pod"; passed := true |},
      [{| subject := TapperPodName X; category := "pods";
          passed := false |}]. }
  destruct (countTappers X tpods) as [tappers notRunningTappers].
  destruct (0 <? notRunningTappers)%nat; rewrite bind_log; cbn.
  - now exists false,
      [Called (ListPodsByAppLabelCall ns (ApiServerPodName X));
       Logged Info (PodRunningMsg (ApiServerPodName X));
       Called (ListPodsByAppLabelCall ns (TapperPodName X));
       Logged Error (TappersNotRunning (TapperPodName X) notRunningTappers
                                       tappers)], w2,
      {| subject := ApiServerPodName X; category := "pod"; passed := true |},
      [{| subject := TapperPodName X; category := "pods";
          passed := false |}].
  - now exists true,
      [Called (ListPodsByAppLabelCall ns (ApiServerPodName X));
       Logged Info (PodRunningMsg (ApiServerPodName X));
       Called (ListPodsByAppLabelCall ns (TapperPodName X));
       Logged Info (TappersRunning (TapperPodName X) tappers)], w2,
      {| subject := ApiServerPodName X; category := "pod"; passed := true |},
      [{| subject := TapperPodName X; category := "pods";
          passed := true |}].
Qed.

End Resources.

Lemma results_called c tr : results (Called c :: tr) = results tr.
Proof. reflexivity. Qed.

Lemma results_heading l title tr :
  results (Logged l (Heading title) :: tr) = results tr.
Proof. reflexivity. Qed.

Lemma calls_called c tr : calls (Called c :: tr) = c :: calls tr.
Proof. reflexivity. Qed.

Lemma calls_logged l m tr : calls (Logged l m :: tr) = calls tr.
Proof. reflexivity. Qed.

Lemma calls_resourceReport name type a tr :
  calls (resourceReport name type a :: tr) = calls tr.
Proof. destruct a as [[|] [e|]]; reflexivity. Qed.

Lemma calls_app (t1 t2 : list Event) : calls (t1 ++ t2) = calls t1 ++ calls t2.
Proof. apply flat_map_app. Qed.

Lemma headings_app (t1 t2 : list Event) :
  headings (t1 ++ t2) = headings t1 ++ headings t2.
Proof. apply flat_map_app. Qed.

Lemma headings_called c tr : headings (Called c :: tr) = headings tr.
Proof. reflexivity. Qed.

Lemma headings_resourceReport name type a tr :
  headings (resourceReport name type a :: tr) = headings tr.
Proof. destruct a as [[|] [e|]]; reflexivity. Qed.

Create Rewrite HintDb trace.

#[local] Hint Rewrite results_called results_heading results_resourceReport
  results_app calls_called calls_logged calls_resourceReport calls_app
  headings_app headings_called headings_resourceReport : trace.

Ltac step :=
  cbv beta iota;
  repeat rewrite bind_assoc;
  first [rewrite bind_log | rewrite bind_call | rewrite bind_check
        | rewrite bind_ret_l].




(* ================================================================== *)
(** ** Stages *)

Lemma headings_heading l title tr :
  headings (Logged l (Heading title) :: tr) = title :: headings tr.
Proof. reflexivity. Qed.

Lemma headings_logged l m tr :
  isHeading m = false -> headings (Logged l m :: tr) = headings tr.
Proof. destruct m; try discriminate; reflexivity. Qed.

#[local] Hint Rewrite headings_heading : trace.

Lemma quietly_ret {X A} (a : A) : quietly (@ret X A a).
Proof. intros w. now exists a, [], w. Qed.

Lemma quietly_log {X} l m : isHeading m = false -> quietly (@log X l m).
Proof.
  intros H w. exists tt, [Logged l m], w. split; [reflexivity|].
  now rewrite headings_logged.
Qed.

Lemma quietly_call {X A} c (op : World X -> A * World X) :
  quietly (call c op).
Proof.
  intros w. unfold call. destruct (op w) as [a w1].
  now exists a, [Called c], w1.
Qed.

Lemma quietly_cancel {X} : quietly (@cancel X).
Proof. intros w. now exists tt, [Called CancelCall], w. Qed.

Lemma quietly_bind {X A B} (m : M X A) (f : A -> M X B) :
  quietly m -> (forall a, quietly (f a)) -> quietly (bind m f).
Proof.
  intros Hm Hf w. destruct (Hm w) as (a & t1 & w1 & E1 & Q1).
  destruct (Hf a w1) as (b & t2 & w2 & E2 & Q2).
  exists b, (t1 ++ t2), w2. split.
  - now apply bind_ok_ok with (a := a) (w1 := w1).
  - now rewrite headings_app, Q1, Q2.
Qed.

Lemma quietly_defer {X A} (d : M X unit) (body : M X A) :
  quietly d -> quietly body -> quietly (defer d body).
Proof.
  intros Hd Hb w. destruct (Hb w) as (a & t1 & w1 & E1 & Q1).
  destruct (Hd w1) as ([] & t2 & w2 & E2 & Q2).
  exists a, (t1 ++ t2), w2. split.
  - unfold defer. now rewrite E1, E2.
  - now rewrite headings_app, Q1, Q2.
Qed.

Lemma quietly_forEach {X A S} (l : list A) (body : A -> S -> M X S) :
  (forall x acc, quietly (body x acc)) -> forall acc, quietly (forEach l body acc).
Proof.
  intros H. induction l as [|x l IH]; intros acc; cbn [forEach].
  - apply quietly_ret.
  - apply quietly_bind; [apply H|exact IH].
Qed.

Lemma staged_intro {X} title (body : M X bool) :
  quietly body -> staged title (log Info (Heading title) ;; body).
Proof.
  intros H w. destruct (H w) as (b & t & w' & E & Q).
  exists b, t, w'. split; [|exact Q].
  rewrite bind_log, E. reflexivity.
Qed.

(** Discharges [quietly] goals by following the shape of the computation. *)
Ltac solve_quietly :=
  repeat first
    [ apply quietly_ret
    | apply quietly_call
    | apply quietly_cancel
    | apply quietly_log; reflexivity
    | apply quietly_bind; [|intro]
    | apply quietly_defer
    | apply quietly_forEach; intros
    | match goal with
      | |- quietly (match ?x with _ => _ end) => destruct x
      | |- quietly (let (_, _) := ?x in _) => destruct x
      end ].

Section Stages.

Variable X : Externals.
Variable cfg : Config.

Lemma checkKubernetesVersion_staged v :
  staged (stageTitle VersionStage) (checkKubernetesVersion X v).
Proof. apply staged_intro. solve_quietly. Qed.

Lemma checkServerConnection_staged p :
  staged (stageTitle ConnectivityStage) (checkServerConnection X cfg p).
Proof.
  apply staged_intro. cbv zeta. unfold checkProxy, checkPortForward. solve_quietly.
Qed.

Lemma checkK8sResources_staged p :
  staged (stageTitle ResourceStage) (checkK8sResources X cfg p).
Proof.
  apply staged_intro. unfold checkPodResourcesExist, checkResourceExist.
  solve_quietly.
Qed.

Lemma checkImagePullInCluster_staged p :
  staged (stageTitle ImagePullStage) (checkImagePullInCluster X cfg p).
Proof.
  apply staged_intro. cbv zeta.
  unfold removeImagePullInClusterResources, checkImagePullInClusterBody,
    createImagePullInClusterResources, checkImagePulled.
  solve_quietly.
Qed.

Lemma checkK8sTapPermissions_staged p :
  manifestKindOk X cfg = true ->
  staged (stageTitle PermissionStage) (checkK8sTapPermissions X cfg p).
Proof.
  intros HK. apply staged_intro. cbv zeta.
  unfold manifestKindOk, getDecodedObject in *. 
  destruct (ReadFile X _) as [data|err]; [|solve_quietly].
  destruct (Decode X data) as [obj|err]; [|solve_quietly].
  unfold checkPermissions, checkPermissionExist.
  destruct obj as [rules|rules|]; destruct (IsNsRestrictedMode cfg);
    try discriminate HK; solve_quietly.
Qed.

Lemma checkKubernetesApi_run w :
  exists t w',
    ((exists p v,
         checkKubernetesApi X cfg w
         = (Ok (Some p, Some v, true),
            Logged Info (Heading (stageTitle ApiStage)) :: t, w'))
     \/ checkKubernetesApi X cfg w
        = (Ok (None, None, false),
           Logged Info (Heading (stageTitle ApiStage)) :: t, w'))
    /\ headings t = [].
Proof.
  unfold checkKubernetesApi. rewrite bind_log, bind_call.
  destruct (NewProvider X _ _ w) as [[p|err] w1].
  - rewrite bind_log, bind_call.
    destruct (GetKubernetesVersion X p w1) as [[v|err] w2].
    + do 2 eexists. split; [left; exists p, v; reflexivity|reflexivity].
    + do 2 eexists. split; [right; reflexivity|reflexivity].
  - do 2 eexists. split; [right; reflexivity|reflexivity].
Qed.

End Stages.

(* ================================================================== *)
(** ** The orchestrator *)

Ltac norm_trace :=
  repeat (progress (rewrite <- ?app_assoc; cbn [app])).

Ltac run_stage E :=
  cbn [deref runGated laterStages];
  repeat (rewrite bind_assoc || rewrite bind_ret_l);
  rewrite !(bind_ok _ _ _ _ _ _ E); cbv beta iota.

Ltac close_run :=
  unfold bind, ret, log, cancel; cbv beta iota;
  do 3 eexists; split; [reflexivity|];
  cbn [forallb snd fst andb map length firstn removelast stageOrder];
  split; [norm_trace; rewrite ?app_nil_r; reflexivity|];
  split; [reflexivity|]; split; [discriminate|]; split; [reflexivity|];
  split; [try discriminate; try reflexivity|].

(** C1.  Provided the embedded permission file, if it decodes, decodes to
    the kind that is asserted (so that the permission stage does not panic),
    every run of [runMizuCheck] returns, and it is the gated run of the
    specification: the results [rs] of the stages that ran are those of
    running API reachability, then the version check, then the two stages of
    the mode, each only after all before it returned true.  The stages that
    ran are an initial part of the order fixed for the mode, there is at least
    one, all but the last returned true, and all four ran if all returned
    true; the headings in the log are those of the stages that ran, in order;
    and the verdict, logged last before the deferred cancel, is the
    conjunction of [rs]. *)
Theorem runMizuCheck_gated :
  forall (X : Externals) (cfg : Config) (w : World X),
    (PreTap cfg = true -> manifestKindOk X cfg = true) ->
    exists (rs : list (Stage * bool)) (tr : list Event) (w' : World X),
      stageResults X cfg w = (Ok rs, tr, w')
      /\ runMizuCheck X cfg w
         = (Ok (forallb snd rs),
            Logged Info MizuChecks :: tr ++
            [Logged (if forallb snd rs then Info else Error)
                    (StatusResults (forallb snd rs));
             Called CancelCall], w')
      /\ map fst rs = firstn (length rs) (stageOrder (PreTap cfg))
      /\ rs <> []
      /\ forallb snd (removelast rs) = true
      /\ (forallb snd rs = true -> map fst rs = stageOrder (PreTap cfg))
      /\ headings tr = map stageTitle (map fst rs).
Proof.
  intros X cfg w HK.
  unfold runMizuCheck, stageResults. rewrite bind_log. unfold defer.
  destruct (checkKubernetesApi_run X cfg w)
    as (t1 & w1 & [(p & v & E1)|E1] & Q1);
    rewrite !(bind_ok _ _ _ _ _ _ E1); cbv beta iota.
  2:{ destruct (PreTap cfg); close_run.
      all: autorewrite with trace; now rewrite Q1. }
  destruct (checkKubernetesVersion_staged X v w1) as (b2 & t2 & w2 & E2 & Q2).
  run_stage E2.
  destruct b2.
  2:{ destruct (PreTap cfg); close_run.
      all: autorewrite with trace; now rewrite Q1, Q2. }
  destruct (PreTap cfg) eqn:EP.
  - destruct (checkK8sTapPermissions_staged X cfg p (HK eq_refl) w2)
      as (b3 & t3 & w3 & E3 & Q3).
    run_stage E3.
    destruct b3.
    2:{ close_run. autorewrite with trace; now rewrite Q1, Q2, Q3. }
    destruct (checkImagePullInCluster_staged X cfg p w3)
      as (b4 & t4 & w4 & E4 & Q4).
    run_stage E4.
    destruct b4; close_run; autorewrite with trace;
      now rewrite Q1, Q2, Q3, Q4.
  - destruct (checkK8sResources_staged X cfg p w2)
      as (b3 & t3 & w3 & E3 & Q3).
    run_stage E3.
    destruct b3.
    2:{ close_run. autorewrite with trace; now rewrite Q1, Q2, Q3. }
    destruct (checkServerConnection_staged X cfg p w3)
      as (b4 & t4 & w4 & E4 & Q4).
    run_stage E4.
    destruct b4; close_run; autorewrite with trace;
      now rewrite Q1, Q2, Q3, Q4.
Qed.

(* ================================================================== *)
(** ** The theorems at concrete inputs *)

(** The gated run on a healthy cluster before tapping: the cluster-wide
    manifest is a ClusterRole, as asserted. *)
Lemma runMizuCheck_gated_healthy :
  (PreTap preTap = true -> manifestKindOk (scripted healthy) preTap = true)
  /\ exists (rs : list (Stage * bool)) (tr : list Event) (w' : nat),
      stageResults (scripted healthy) preTap 0 = (Ok rs, tr, w')
      /\ runMizuCheck (scripted healthy) preTap 0
         = (Ok (forallb snd rs),
            Logged Info MizuChecks :: tr ++
            [Logged (if forallb snd rs then Info else Error)
                    (StatusResults (forallb snd rs));
             Called CancelCall], w')
      /\ map fst rs = firstn (length rs) (stageOrder (PreTap preTap))
      /\ rs <> []
      /\ forallb snd (removelast rs) = true
      /\ (forallb snd rs = true -> map fst rs = stageOrder (PreTap preTap))
      /\ headings tr = map stageTitle (map fst rs).
Proof.
  split; [intros _; reflexivity|].
  apply (runMizuCheck_gated (scripted healthy) preTap 0).
  intros _. reflexivity.
Defined.

(** The pod comes up after the error channel has closed; the error and the
    timer that follow are left unread. *)
Lemma checkImagePulled_running_wins_pullThenError :
  let pre := [RecvEvent (Some (Val (pendingPod probePodName)));
              RecvError None] in
  let post := [RecvError (Some (Some "watch closed")); TimerFired] in
  let wEvent := Val (runningPod probePodName) in
  (FilteredWatch (scripted pullThenError) tt
                 ("^" ++ probePodName ++ "$")%string
                 [MizuResourcesNamespace preTap] 0
   = (pre ++ RecvEvent (Some wEvent) :: post, 0)
   /\ forallb (@quiet (scripted pullThenError)) pre = true
   /\ existsb closesEvents pre = false
   /\ ToPod (scripted pullThenError) wEvent = Val (runningPod probePodName)
   /\ StatusPhase (runningPod probePodName) = PodRunning)
  /\ (@selectLoop (scripted pullThenError) true true
        (pre ++ RecvEvent (Some wEvent) :: post) = (None, post)
      /\ fst (fst (checkImagePulled (scripted pullThenError) preTap tt
                                    probePodName 0)) = Ok None).
Proof.
  intros pre post wEvent.
  split; [repeat split|].
  apply (checkImagePulled_running_wins (scripted pullThenError) preTap tt
           probePodName 0 0 pre post wEvent (runningPod probePodName));
    reflexivity.
Defined.

(** An event that is not a pod ends the watch although the pod comes up right
    after it. *)
Lemma checkImagePulled_malformed_event_malformedThenPull :
  let pre := [RecvEvent (Some (Val (pendingPod probePodName)))] in
  let post := [RecvEvent (Some (Val (runningPod probePodName)))] in
  let wEvent := @Fail Pod "unexpected object" in
  (FilteredWatch (scripted malformedThenPull) tt
                 ("^" ++ probePodName ++ "$")%string
                 [MizuResourcesNamespace preTap] 0
   = (pre ++ RecvEvent (Some wEvent) :: post, 0)
   /\ forallb (@quiet (scripted malformedThenPull)) pre = true
   /\ existsb closesEvents pre = false
   /\ ToPod (scripted malformedThenPull) wEvent = Fail "unexpected object")
  /\ (@selectLoop (scripted malformedThenPull) true true
        (pre ++ RecvEvent (Some wEvent) :: post)
      = (Some "unexpected object", post)
      /\ fst (fst (checkImagePulled (scripted malformedThenPull) preTap tt
                                    probePodName 0))
         = Ok (Some "unexpected object")).
Proof.
  intros pre post wEvent.
  split; [repeat split|].
  apply (checkImagePulled_malformed_event (scripted malformedThenPull) preTap
           tt probePodName 0 0 pre post wEvent "unexpected object");
    reflexivity.
Defined.


(** Both tunnels open, both probes are refused, neither tunnel is closed. *)
Lemma tunnel_left_open_serverDown :
  (StartProxy (scripted serverDown) tt (ProxyHost postTap) (GuiPort postTap)
              (MizuResourcesNamespace postTap)
              (ApiServerPodName (scripted serverDown)) 1 = (Val tt, 1)
   /\ TestConnection (scripted serverDown) "localhost"
                     (DefaultRetries (scripted serverDown))
                     (DefaultTimeout (scripted serverDown)) 1
      = (Some "connection refused", 2)
   /\ NewPortForward (scripted serverDown) tt (MizuResourcesNamespace postTap)
                     (ApiServerPodName (scripted serverDown))
                     (GuiPort postTap) 2 = (Val tt, 2)
   /\ TestConnection (scripted serverDown) "localhost"
                     (DefaultRetries (scripted serverDown))
                     (DefaultTimeout (scripted serverDown)) 2
      = (Some "connection refused", 3))
  /\ (exists t,
         checkProxy (scripted serverDown) postTap "localhost" tt 1
         = (Ok (Some "connection refused"), t, 2)
         /\ existsb isStartProxy (calls t) = true
         /\ existsb isShutdown (calls t) = false)
  /\ (exists t,
         checkPortForward (scripted serverDown) postTap "localhost" tt 2
         = (Ok (Some "connection refused"), t, 3)
         /\ existsb isNewPortForward (calls t) = true
         /\ existsb isForwarderClose (calls t) = false).
Proof.
  split; [repeat split|].
  apply (tunnel_left_open_on_probe_failure (scripted serverDown) postTap tt
           "localhost" 1 1 2 2 2 3 tt tt
           "connection refused" "connection refused"); reflexivity.
Defined.

(** Three tappers, two of them pending: the check fails with 2 out of 3. *)
Lemma checkPodResourcesExist_tappers_serverDown :
  (ListPodsByAppLabel (scripted serverDown) tt (MizuResourcesNamespace postTap)
                      (ApiServerPodName (scripted serverDown)) 0
   = (([runningPod "mizu-api-server"], None), 0)
   /\ IsPodRunning (scripted serverDown) (runningPod "mizu-api-server") = true
   /\ ListPodsByAppLabel (scripted serverDown) tt
                         (MizuResourcesNamespace postTap)
                         (TapperPodName (scripted serverDown)) 0
      = (([runningPod "tapper-a"; pendingPod "tapper-b";
           pendingPod "tapper-c"], None), 0))
  /\ checkPodResourcesExist (scripted serverDown) postTap tt 0
     = (Ok false,
        [Called (ListPodsByAppLabelCall "mizu" "mizu-api-server");
         Logged Info (PodRunningMsg "mizu-api-server");
         Called (ListPodsByAppLabelCall "mizu" "mizu-tapper");
         Logged Error (TappersNotRunning "mizu-tapper" 2 3)], 0).
Proof.
  split; [repeat split|].
  apply (checkPodResourcesExist_tappers (scripted serverDown) postTap tt 0 0 0
           (runningPod "mizu-api-server") []
           [runningPod "tapper-a"; pendingPod "tapper-b";
            pendingPod "tapper-c"]); reflexivity.
Defined.

(** *** Runs of the checks on scripted clusters *)

(** Two rules with the same tuples are queried twice over. *)
Example checkPermissions_repeats_duplicates :
  length (calls (snd (fst (checkPermissions (scripted healthy) preTap tt
                                            [tapRule; tapRule] 0)))) = 24
  /\ length (calls (snd (fst (checkPermissions (scripted healthy) preTap tt
                                               [tapRule] 0)))) = 12.
Proof. split; reflexivity. Qed.

(** Cluster role present, binding missing: both are reported, the stage
    fails, and the entries after them are still evaluated; no tapper at all
    counts as zero of zero not running. *)
Example checkK8sResources_bindingMissing :
  let run := checkK8sResources (scripted bindingMissing) postTap tt 0 in
  fst (fst run) = Ok false
  /\ results (snd (fst run))
     = [ {| subject := "mizu"; category := "namespace"; passed := true |};
         {| subject := "mizu-config"; category := "config map";
            passed := true |};
         {| subject := "mizu-service-account";
            category := "service account"; passed := true |};
         {| subject := "mizu-cluster-role"; category := "cluster role";
            passed := true |};
         {| subject := "mizu-cluster-role-binding";
            category := "cluster role binding"; passed := false |};
         {| subject := "mizu-api-server"; category := "service";
            passed := true |};
         {| subject := "mizu-api-server"; category := "pod";
            passed := true |};
         {| subject := "mizu-tapper"; category := "pods";
            passed := true |} ].
Proof. split; reflexivity. Qed.

(** Direct connection refused, proxy answers: the proxy is shut down, the
    port-forward is tried all the same, and the verdict is true. *)
Example checkServerConnection_proxyOnly :
  checkServerConnection (scripted proxyOnly) postTap tt 0
  = (Ok true,
     [Logged Info (Heading "API-server-connectivity");
      Called (TestConnectionCall "localhost" 1);
      Called (StartProxyCall "127.0.0.1" 4899 "mizu" "mizu-api-server");
      Called (TestConnectionCall "localhost" 3);
      Called ShutdownCall;
      Called CancelCall;
      Logged Info ProxyConnected;
      Called (NewPortForwardCall "mizu" "mizu-api-server" 4899);
      Called (TestConnectionCall "localhost" 3);
      Called CancelCall;
      Logged Error (PortForwardFailed "connection refused")], 3).
Proof. reflexivity. Qed.

(** Nothing answers: each tunnel is started and probed, and neither is
    closed. *)
Example checkServerConnection_serverDown :
  checkServerConnection (scripted serverDown) postTap tt 0
  = (Ok false,
     [Logged Info (Heading "API-server-connectivity");
      Called (TestConnectionCall "localhost" 1);
      Called (StartProxyCall "127.0.0.1" 4899 "mizu" "mizu-api-server");
      Called (TestConnectionCall "localhost" 3);
      Called CancelCall;
      Logged Error (ProxyFailed "connection refused");
      Called (NewPortForwardCall "mizu" "mizu-api-server" 4899);
      Called (TestConnectionCall "localhost" 3);
      Called CancelCall;
      Logged Error (PortForwardFailed "connection refused")], 3).
Proof. reflexivity. Qed.

(** The image is never pulled and both removals fail: the removals are still
    called, their failures are logged at debug level, the verdict is the
    timeout's. *)
Example checkImagePullInCluster_serverDown :
  checkImagePullInCluster (scripted serverDown) preTap tt 0
  = (Ok false,
     [Logged Info (Heading "image-pull-in-cluster");
      Called (CreateNamespaceCall "mizu");
      Called (CreatePodCall "mizu" "image-pull-in-cluster");
      Called (FilteredWatchCall "^image-pull-in-cluster$" ["mizu"]);
      Logged Error (ImagePullFailed "image not pulled in time");
      Called (RemovePodCall "mizu" "image-pull-in-cluster");
      Logged Debug (ImagePullRemoveError "pod not found");
      Called (RemoveNamespaceCall "mizu");
      Logged Debug (ImagePullRemoveError "namespace not found")], 0).
Proof. reflexivity. Qed.

(** A stage that fails stops the run: with the server pod gone the
    connectivity stage does not start. *)
Example stageResults_serverPodGone :
  fst (fst (stageResults (scripted serverPodGone) postTap 0))
  = Ok [(ApiStage, true); (VersionStage, true); (ResourceStage, false)]
  /\ fst (fst (runMizuCheck (scripted serverPodGone) postTap 0)) = Ok false
  /\ headings (snd (fst (runMizuCheck (scripted serverPodGone) postTap 0)))
     = ["kubernetes-api"; "kubernetes-version"; "k8s-components"].
Proof. repeat split; reflexivity. Qed.

(* ================================================================== *)
(** ** Further properties of the checks *)

(** *** Permissions *)

Lemma flat_map_nil_const {A B} (l : list A) :
  flat_map (fun _ : A => @nil B) l = [].
Proof. induction l as [|x l IH]; [reflexivity|exact IH]. Qed.

Lemma tuples_app (r1 r2 : list PolicyRule) :
  tuples (r1 ++ r2) = tuples r1 ++ tuples r2.
Proof. apply flat_map_app. Qed.

Lemma tuples_nil (rules : list PolicyRule) :
  (forall rule, In rule rules ->
     APIGroups rule = [] \/ Resources rule = [] \/ Verbs rule = []) ->
  tuples rules = [].
Proof.
  induction rules as [|rule rules IH]; intros H; [reflexivity|].
  unfold tuples in *. cbn [flat_map]. rewrite IH by (intros r Hr; apply H; now right).
  rewrite app_nil_r.
  destruct (H rule (or_introl eq_refl)) as [E|[E|E]]; rewrite E.
  - reflexivity.
  - cbn [flat_map]. apply flat_map_nil_const.
  - cbn [map].
    erewrite flat_map_ext; [apply flat_map_nil_const|].
    intros group. apply flat_map_nil_const.
Qed.

(** X1.  A rule in which the groups, the resources or the verbs are empty
    asks nothing of the cluster: a rule list made of such rules (the empty
    list among them) passes without a single query or log line. *)
Theorem checkPermissions_nothing_to_ask :
  forall (X : Externals) (cfg : Config) (p : Provider X)
         (rules : list PolicyRule) (w : World X),
    (forall rule, In rule rules ->
       APIGroups rule = [] \/ Resources rule = [] \/ Verbs rule = []) ->
    checkPermissions X cfg p rules w = (Ok true, [], w).
Proof.
  intros X cfg p rules w H.
  rewrite checkPermissions_tuples, (tuples_nil rules H). reflexivity.
Qed.

(** X2.  Checking two rule lists one after the other, the second from the
    world the first left, is checking their concatenation: the traces follow
    each other and the results are conjoined. *)
Theorem checkPermissions_app :
  forall (X : Externals) (cfg : Config) (p : Provider X)
         (rules1 rules2 : list PolicyRule) (w : World X),
  exists (b1 b2 : bool) (t1 t2 : list Event) (w1 w2 : World X),
    checkPermissions X cfg p rules1 w = (Ok b1, t1, w1)
    /\ checkPermissions X cfg p rules2 w1 = (Ok b2, t2, w2)
    /\ checkPermissions X cfg p (rules1 ++ rules2) w
       = (Ok (b1 && b2), t1 ++ t2, w2).
Proof.
  intros X cfg p rules1 rules2 w.
  pose proof (forEach_permissionStep X cfg p (tuples rules1) true w) as E1.
  destruct (queryAll X cfg p (tuples rules1) w) as [a1 w1].
  pose proof (forEach_permissionStep X cfg p (tuples rules2) true w1) as E2.
  pose proof (forEach_permissionStep X cfg p (tuples rules2)
                (forallb allowed a1 && true) w1) as E3.
  destruct (queryAll X cfg p (tuples rules2) w1) as [a2 w2].
  exists (forallb allowed a1), (forallb allowed a2).
  do 2 eexists. exists w1, w2.
  rewrite !checkPermissions_tuples, tuples_app, forEach_app.
  unfold bind. rewrite E1, E2, E3.
  rewrite !andb_true_r.
  split; [reflexivity|]. split; [reflexivity|].
  f_equal. f_equal. f_equal. apply andb_comm.
Qed.

(** X3.  When the embedded permission file of the mode cannot be read, or is
    read and cannot be decoded, [checkK8sTapPermissions] fails with the error
    logged and without asking the cluster anything. *)
Theorem checkK8sTapPermissions_no_manifest :
  forall (X : Externals) (cfg : Config) (p : Provider X) (w : World X)
         (err : Err),
    let filePath :=
      if IsNsRestrictedMode cfg
      then "permissionFiles/permissions-ns-tap.yaml"
      else "permissionFiles/permissions-all-namespaces-tap.yaml" in
    (ReadFile X filePath = Fail err
     \/ exists data, ReadFile X filePath = Val data
                     /\ Decode X data = Fail err) ->
    checkK8sTapPermissions X cfg p w
    = (Ok false,
       [Logged Info (Heading "kubernetes-permissions");
        Logged Error (PermissionsFileError err)], w).
Proof.
  intros X cfg p w err filePath H.
  unfold checkK8sTapPermissions. fold filePath. rewrite bind_log.
  destruct H as [E|(data & E & D)]; rewrite E.
  - reflexivity.
  - unfold getDecodedObject. rewrite D. reflexivity.
Qed.

(** *** What a run never does *)

Lemma always_ret {X A} P (a : A) : always P (@ret X A a).
Proof. intros w. reflexivity. Qed.

Lemma always_panic {X A} P why : always P (@panic X A why).
Proof. intros w. reflexivity. Qed.

Lemma always_log {X} P l m : P (Logged l m) = true -> always P (@log X l m).
Proof. intros H w. cbn. now rewrite H. Qed.

Lemma always_call {X A} P c (op : World X -> A * World X) :
  P (Called c) = true -> always P (call c op).
Proof.
  intros H w. unfold call. destruct (op w) as [a w1]. cbn. now rewrite H.
Qed.

Lemma always_cancel {X} P : P (Called CancelCall) = true -> always P (@cancel X).
Proof. intros H w. cbn. now rewrite H. Qed.

Lemma always_bind {X A B} P (m : M X A) (f : A -> M X B) :
  always P m -> (forall a, always P (f a)) -> always P (bind m f).
Proof.
  intros Hm Hf w. specialize (Hm w). unfold bind.
  destruct (m w) as [[[a|why] t1] w1]; cbn [fst snd] in *; [|exact Hm].
  specialize (Hf a w1). destruct (f a w1) as [[r t2] w2].
  cbn [fst snd] in *. now rewrite forallb_app, Hm, Hf.
Qed.

Lemma always_defer {X A} P (d : M X unit) (body : M X A) :
  always P d -> always P body -> always P (defer d body).
Proof.
  intros Hd Hb w. specialize (Hb w). unfold defer.
  destruct (body w) as [[r t1] w1]. specialize (Hd w1).
  destruct (d w1) as [[[u|why] t2] w2]; cbn [fst snd] in *;
    now rewrite forallb_app, Hb, Hd.
Qed.

Lemma always_forEach {X A S} P (l : list A) (body : A -> S -> M X S) :
  (forall x acc, always P (body x acc)) ->
  forall acc, always P (forEach l body acc).
Proof.
  intros H. induction l as [|x l IH]; intros acc; cbn [forEach].
  - apply always_ret.
  - apply always_bind; [apply H|exact IH].
Qed.

Lemma forallb_onCalls P (t : list Event) :
  forallb (onCalls P) t = forallb P (calls t).
Proof.
  induction t as [|[l m|c] t IH]; [reflexivity|exact IH|].
  cbn. now rewrite IH.
Qed.

(** Discharges [always] goals by following the shape of the computation. *)
Ltac solve_always :=
  repeat first
    [ apply always_ret
    | apply always_panic
    | apply always_call; reflexivity
    | apply always_cancel; reflexivity
    | apply always_log; reflexivity
    | apply always_bind; [|intro]
    | apply always_defer
    | apply always_forEach; intros
    | match goal with
      | |- always _ (match ?x with _ => _ end) => destruct x
      | |- always _ (let (_, _) := ?x in _) => destruct x
      end ].

Ltac unfold_checks :=
  unfold runMizuCheck, checkKubernetesApi, checkKubernetesVersion,
    checkK8sTapPermissions, checkPermissions, checkPermissionExist,
    getDecodedObject, checkImagePullInCluster, checkImagePullInClusterBody,
    createImagePullInClusterResources, removeImagePullInClusterResources,
    checkImagePulled, checkK8sResources, checkPodResourcesExist,
    checkResourceExist, checkServerConnection, checkProxy, checkPortForward,
    deref;
  cbv zeta.

(** X4.  A post-tap run makes none of the pre-tap calls: it never asks for
    permissions, and never calls [CreateNamespace], [CreatePod],
    [FilteredWatch], [RemovePod] or [RemoveNamespace]. *)
Theorem runMizuCheck_postTap_reads_only :
  forall (X : Externals) (cfg : Config) (w : World X),
    PreTap cfg = false ->
    forallb notPreTap (calls (snd (fst (runMizuCheck X cfg w)))) = true.
Proof.
  intros X cfg w H. rewrite <- forallb_onCalls. revert w.
  change (always (onCalls notPreTap) (runMizuCheck X cfg)).
  unfold_checks. rewrite H. solve_always.
Qed.

(** X5.  A pre-tap run never looks for the installed resources and never
    tests a connection or opens a tunnel. *)
Theorem runMizuCheck_preTap_no_installation_calls :
  forall (X : Externals) (cfg : Config) (w : World X),
    PreTap cfg = true ->
    forallb notPostTap (calls (snd (fst (runMizuCheck X cfg w)))) = true.
Proof.
  intros X cfg w H. rewrite <- forallb_onCalls. revert w.
  change (always (onCalls notPostTap) (runMizuCheck X cfg)).
  unfold_checks. rewrite H. solve_always.
Qed.

(** *** Panics *)

Lemma bind_panic {X A B} (m : M X A) (f : A -> M X B) w why t w1 :
  m w = (Panic why, t, w1) -> bind m f w = (Panic why, t, w1).
Proof. intros E. unfold bind. now rewrite E. Qed.

Lemma checkK8sTapPermissions_panics (X : Externals) (cfg : Config)
  (p : Provider X) (w : World X) :
  manifestKindOk X cfg = false ->
  checkK8sTapPermissions X cfg p w
  = (Panic "interface conversion",
     [Logged Info (Heading "kubernetes-permissions")], w).
Proof.
  intros HK.
  unfold checkK8sTapPermissions, manifestKindOk, getDecodedObject in *.
  rewrite bind_log.
  destruct (ReadFile X _) as [data|err]; [|discriminate HK].
  destruct (Decode X data) as [obj|err]; [|discriminate HK].
  destruct obj as [rules|rules|]; destruct (IsNsRestrictedMode cfg);
    try discriminate HK; reflexivity.
Qed.

Lemma checkK8sTapPermissions_outcome (X : Externals) (cfg : Config)
  (p : Provider X) (w : World X) :
  (exists b t w',
      checkK8sTapPermissions X cfg p w
      = (Ok b, Logged Info (Heading "kubernetes-permissions") :: t, w'))
  \/ (manifestKindOk X cfg = false
      /\ checkK8sTapPermissions X cfg p w
         = (Panic "interface conversion",
            [Logged Info (Heading "kubernetes-permissions")], w)).
Proof.
  destruct (manifestKindOk X cfg) eqn:HK.
  - left. destruct (checkK8sTapPermissions_staged X cfg p HK w)
      as (b & t & w' & E & _). now exists b, t, w'.
  - right. split; [reflexivity|]. now apply checkK8sTapPermissions_panics.
Qed.

Lemma checkKubernetesApi_no_status (X : Externals) (cfg : Config) :
  always notStatusResults (checkKubernetesApi X cfg).
Proof. unfold checkKubernetesApi. solve_always. Qed.

Lemma checkKubernetesVersion_no_status (X : Externals) v :
  always notStatusResults (checkKubernetesVersion X v).
Proof. unfold checkKubernetesVersion. solve_always. Qed.

Ltac run_stage_in E H :=
  cbn [deref] in H;
  repeat (rewrite bind_assoc in H || rewrite bind_ret_l in H);
  rewrite !(bind_ok _ _ _ _ _ _ E) in H; cbv beta iota in H.

Ltac returns_in H :=
  unfold bind, ret, log, cancel in H; cbv beta iota in H; discriminate H.

(** X6.  The only panic a run can end in is the type assertion on the
    permission manifest: it happens in pre-tap mode only, on a manifest of
    the wrong kind; the deferred cancel is still the last thing the run does,
    and no verdict line is logged. *)
Theorem runMizuCheck_panics_only_on_manifest_kind :
  forall (X : Externals) (cfg : Config) (w w' : World X) (why : string)
         (t : list Event),
    runMizuCheck X cfg w = (Panic why, t, w') ->
    why = "interface conversion"
    /\ PreTap cfg = true
    /\ manifestKindOk X cfg = false
    /\ (exists t0, t = t0 ++ [Called CancelCall])
    /\ forallb notStatusResults t = true.
Proof.
  intros X cfg w w' why t H.
  unfold runMizuCheck in H. rewrite bind_log in H. unfold defer in H.
  pose proof (checkKubernetesApi_no_status X cfg w) as S1.
  destruct (checkKubernetesApi_run X cfg w)
    as (t1 & w1 & [(p & v & E1)|E1] & _);
    rewrite E1 in S1; cbn [fst snd] in S1;
    rewrite !(bind_ok _ _ _ _ _ _ E1) in H; cbv beta iota in H.
  2:{ destruct (PreTap cfg); returns_in H. }
  pose proof (checkKubernetesVersion_no_status X v w1) as S2.
  destruct (checkKubernetesVersion_staged X v w1) as (b2 & t2 & w2 & E2 & _).
  rewrite E2 in S2; cbn [fst snd] in S2.
  run_stage_in E2 H.
  destruct b2.
  2:{ destruct (PreTap cfg); returns_in H. }
  destruct (PreTap cfg) eqn:EP.
  - destruct (checkK8sTapPermissions_outcome X cfg p w2)
      as [(b3 & t3 & w3 & E3)|[HK E3]].
    + run_stage_in E3 H. destruct b3; [|returns_in H].
      destruct (checkImagePullInCluster_staged X cfg p w3)
        as (b4 & t4 & w4 & E4 & _).
      run_stage_in E4 H. destruct b4; returns_in H.
    + cbn [deref] in H.
      repeat (rewrite bind_assoc in H || rewrite bind_ret_l in H).
      rewrite (bind_panic _ _ _ _ _ _ E3) in H. cbv beta iota in H.
      unfold cancel in H. injection H as <- <- <-.
      split; [reflexivity|]. split; [reflexivity|]. split; [exact HK|].
      split.
      * exists (Logged Info MizuChecks
                :: Logged Info (Heading "kubernetes-api")
                :: t1 ++ Logged Info (Heading "kubernetes-version")
                :: t2 ++ [Logged Info (Heading "kubernetes-permissions")]).
        reflexivity.
      * cbn [forallb] in S1, S2 |- *.
        rewrite !forallb_app. cbn [forallb app].
        cbn [notStatusResults isStatusResults negb andb] in *.
        rewrite forallb_app. cbn [forallb].
        cbn [notStatusResults isStatusResults negb andb] in *.
        now rewrite S1, S2.
  - destruct (checkK8sResources_staged X cfg p w2)
      as (b3 & t3 & w3 & E3 & _).
    run_stage_in E3 H. destruct b3; [|returns_in H].
    destruct (checkServerConnection_staged X cfg p w3)
      as (b4 & t4 & w4 & E4 & _).
    run_stage_in E4 H. destruct b4; returns_in H.
Qed.

(** X7.  In pre-tap mode, with a permission manifest of the wrong kind, a run
    whose API and version stages pass panics at the type assertion: the
    permission stage has logged its heading and asked nothing, the image-pull
    stage does not start, no verdict is logged, and the deferred cancel
    runs. *)
Theorem runMizuCheck_wrong_manifest_kind :
  forall (X : Externals) (cfg : Config) (w w1 w2 : World X)
         (p : Provider X) (v : SemVersion X),
    PreTap cfg = true ->
    manifestKindOk X cfg = false ->
    NewProvider X (KubeConfigPath cfg) (KubeContext cfg) w = (Val p, w1) ->
    GetKubernetesVersion X p w1 = (Val v, w2) ->
    ValidateKubernetesVersion X v = None ->
    runMizuCheck X cfg w
    = (Panic "interface conversion",
       [Logged Info MizuChecks;
        Logged Info (Heading "kubernetes-api");
        Called (NewProviderCall (KubeConfigPath cfg) (KubeContext cfg));
        Logged Info CanInitClient;
        Called GetKubernetesVersionCall;
        Logged Info CanQueryApi;
        Logged Info (Heading "kubernetes-version");
        Logged Info VersionOk;
        Logged Info (Heading "kubernetes-permissions");
        Called CancelCall], w2).
Proof.
  intros X cfg w w1 w2 p v EP HK E1 E2 EV.
  unfold runMizuCheck. rewrite bind_log. unfold defer.
  unfold checkKubernetesApi, checkKubernetesVersion.
  repeat first
    [ rewrite bind_assoc | rewrite bind_log | rewrite bind_call
    | rewrite bind_ret_l | rewrite E1 | rewrite E2 | rewrite EV | rewrite EP
    | progress cbn [deref] | progress cbv beta iota ].
  rewrite (bind_panic _ _ _ _ _ _ (checkK8sTapPermissions_panics X cfg p w2 HK)).
  reflexivity.
Qed.

(** *** Pods, resources and tunnels *)

Lemma none_not_running (X : Externals) (pods : list Pod) :
  (0 <? length (filter (fun pod => negb (IsPodRunning X pod)) pods))%nat
  = negb (forallb (IsPodRunning X) pods).
Proof.
  induction pods as [|pod pods IH]; [reflexivity|].
  cbn [filter forallb]. destruct (IsPodRunning X pod); cbn [negb andb].
  - exact IH.
  - reflexivity.
Qed.

(** X8.  [checkPodResourcesExist] passes exactly when the listing of the
    server pods succeeds and is not empty, the first pod listed is running,
    the listing of the tapper pods succeeds, and every tapper listed is
    running.  Server pods after the first are not looked at. *)
Theorem checkPodResourcesExist_verdict :
  forall (X : Externals) (cfg : Config) (p : Provider X) (w : World X),
    let server :=
      ListPodsByAppLabel X p (MizuResourcesNamespace cfg)
                         (ApiServerPodName X) w in
    let tappers :=
      ListPodsByAppLabel X p (MizuResourcesNamespace cfg)
                         (TapperPodName X) (snd server) in
    fst (fst (checkPodResourcesExist X cfg p w))
    = Ok (isNil (snd (fst server))
          && match fst (fst server) with
             | [] => false
             | pod0 :: _ => IsPodRunning X pod0
             end
          && isNil (snd (fst tappers))
          && forallb (IsPodRunning X) (fst (fst tappers))).
Proof.
  intros X cfg p w server tappers. subst server tappers.
  unfold checkPodResourcesExist. rewrite bind_call.
  destruct (ListPodsByAppLabel X p _ (ApiServerPodName X) w)
    as [[spods [err|]] w1]; cbn [fst snd isNil andb]; [reflexivity|].
  destruct spods as [|pod0 others]; [reflexivity|].
  destruct (IsPodRunning X pod0); cbn [negb andb]; [|reflexivity].
  rewrite bind_log, bind_call.
  destruct (ListPodsByAppLabel X p _ (TapperPodName X) w1)
    as [[tpods [err|]] w2]; cbn [fst snd isNil andb]; [reflexivity|].
  rewrite countTappers_counts, none_not_running.
  destruct (forallb (IsPodRunning X) tpods); reflexivity.
Qed.

(** X9.  What [checkProxy] returns is settled by starting the proxy and by
    the probe through it: the error of [StartProxy], else the result of the
    probe.  A proxy that does not start is not probed; [Shutdown] is called,
    once, exactly when start and probe both succeeded, and an error from it
    is not returned; the deferred cancel is the last event on every path. *)
Theorem checkProxy_outcome :
  forall (X : Externals) (cfg : Config) (p : Provider X) (serverUrl : string)
         (w : World X),
    let start :=
      StartProxy X p (ProxyHost cfg) (GuiPort cfg)
                 (MizuResourcesNamespace cfg) (ApiServerPodName X) w in
    let probe :=
      TestConnection X serverUrl (DefaultRetries X) (DefaultTimeout X)
                     (snd start) in
    let run := checkProxy X cfg serverUrl p w in
    fst (fst run)
    = Ok (match fst start with Fail err => Some err | Val _ => fst probe end)
    /\ (exists t0, snd (fst run) = t0 ++ [Called CancelCall])
    /\ length (filter isTestConnection (calls (snd (fst run))))
       = (match fst start with Val _ => 1 | Fail _ => 0 end)
    /\ length (filter isShutdown (calls (snd (fst run))))
       = (match fst start, fst probe with Val _, None => 1 | _, _ => 0 end).
Proof.
  intros X cfg p serverUrl w start probe run. subst run probe start.
  rewrite checkProxy_run.
  destruct (StartProxy X p _ _ _ _ w) as [[httpServer|err] w1];
    cbn [fst snd].
  2:{ repeat split. now eexists [_]. }
  destruct (TestConnection X serverUrl _ _ w1) as [[err|] w2]; cbn [fst snd].
  { repeat split. now eexists [_; _]. }
  destruct (Shutdown X httpServer w2) as [[err|] w3]; cbn [fst snd];
    repeat split.
  - now eexists [_; _; _; _].
  - now eexists [_; _; _].
Qed.

(** X10.  What [checkPortForward] returns is settled by opening the
    port-forward and by the probe through it.  A forwarder that does not open
    is not probed; the forwarder is closed, once, exactly when opening and
    probe both succeeded; the deferred cancel is the last event on every
    path. *)
Theorem checkPortForward_outcome :
  forall (X : Externals) (cfg : Config) (p : Provider X) (serverUrl : string)
         (w : World X),
    let start :=
      NewPortForward X p (MizuResourcesNamespace cfg) (ApiServerPodName X)
                     (GuiPort cfg) w in
    let probe :=
      TestConnection X serverUrl (DefaultRetries X) (DefaultTimeout X)
                     (snd start) in
    let run := checkPortForward X cfg serverUrl p w in
    fst (fst run)
    = Ok (match fst start with Fail err => Some err | Val _ => fst probe end)
    /\ (exists t0, snd (fst run) = t0 ++ [Called CancelCall])
    /\ length (filter isTestConnection (calls (snd (fst run))))
       = (match fst start with Val _ => 1 | Fail _ => 0 end)
    /\ length (filter isForwarderClose (calls (snd (fst run))))
       = (match fst start, fst probe with Val _, None => 1 | _, _ => 0 end).
Proof.
  intros X cfg p serverUrl w start probe run. subst run probe start.
  rewrite checkPortForward_run.
  destruct (NewPortForward X p _ _ _ w) as [[forwarder|err] w1];
    cbn [fst snd].
  2:{ repeat split. now eexists [_]. }
  destruct (TestConnection X serverUrl _ _ w1) as [[err|] w2]; cbn [fst snd];
    repeat split.
  - now eexists [_; _].
  - now eexists [_; _; _].
Qed.

(** X11.  The resource stage only asks and lists.  Its calls are, in this
    order, the existence queries for the namespace, the config map and the
    service account, then for the Role and RoleBinding in namespace-restricted
    mode and for the ClusterRole and ClusterRoleBinding otherwise (never
    both pairs), then for the service, then the listing of the server pods
    and, last and only on some runs, the listing of the tapper pods; a run
    that passes has listed the tappers. *)
Theorem checkK8sResources_calls :
  forall (X : Externals) (cfg : Config) (p : Provider X) (w : World X),
  exists (b tappersListed : bool) (t : list Event) (w' : World X),
    checkK8sResources X cfg p w = (Ok b, t, w')
    /\ calls t
       = [DoesNamespaceExistCall (MizuResourcesNamespace cfg);
          DoesConfigMapExistCall (MizuResourcesNamespace cfg)
                                 (ConfigMapName X);
          DoesServiceAccountExistCall (MizuResourcesNamespace cfg)
                                      (ServiceAccountName X)] ++
         (if IsNsRestrictedMode cfg
          then [DoesRoleExistCall (MizuResourcesNamespace cfg) (RoleName X);
                DoesRoleBindingExistCall (MizuResourcesNamespace cfg)
                                         (RoleBindingName X)]
          else [DoesClusterRoleExistCall (ClusterRoleName X);
                DoesClusterRoleBindingExistCall (ClusterRoleBindingName X)])
         ++
         [DoesServiceExistCall (MizuResourcesNamespace cfg)
                               (ApiServerPodName X);
          ListPodsByAppLabelCall (MizuResourcesNamespace cfg)
                                 (ApiServerPodName X)] ++
         (if tappersListed
          then [ListPodsByAppLabelCall (MizuResourcesNamespace cfg)
                                       (TapperPodName X)]
          else [])
    /\ (b = true -> tappersListed = true).
Proof.
  intros X cfg p w. unfold checkK8sResources.
  step. step.
  destruct (DoesNamespaceExist X p _ w) as [[e1 r1] w1].
  step. step.
  destruct (DoesConfigMapExist X p _ _ w1) as [[e2 r2] w2].
  step. step.
  destruct (DoesServiceAccountExist X p _ _ w2) as [[e3 r3] w3].
  step.
  destruct (IsNsRestrictedMode cfg).
  - step. destruct (DoesRoleExist X p _ _ w3) as [[e4 r4] w4].
    step. step. destruct (DoesRoleBindingExist X p _ _ w4) as [[e5 r5] w5].
    step. step. step.
    destruct (DoesServiceExist X p _ _ w5) as [[e6 r6] w6].
    step. cbv beta iota.
    destruct (checkPodResourcesExist_results X cfg p w6)
      as (b7 & t7 & w7 & server & tappers & E7 & _ & _ & _ & B7 & C7 & _).
    rewrite (bind_ok _ _ _ _ _ _ E7). unfold ret. cbv beta iota.
    exists (b7 && (allowed (e6, r6) && (allowed (e5, r5) &&
             (allowed (e4, r4) && (allowed (e3, r3) &&
             (allowed (e2, r2) && allowed (e1, r1))))))), (passed server).
    do 2 eexists. split; [reflexivity|].
    autorewrite with trace. rewrite C7. cbn [calls flat_map app].
    rewrite ?app_nil_r.
    split; [reflexivity|].
    rewrite B7. cbn [forallb]. destruct (passed server); [reflexivity|].
    cbn [andb]. discriminate.
  - step. destruct (DoesClusterRoleExist X p _ w3) as [[e4 r4] w4].
    step. step.
    destruct (DoesClusterRoleBindingExist X p _ w4) as [[e5 r5] w5].
    step. step. step.
    destruct (DoesServiceExist X p _ _ w5) as [[e6 r6] w6].
    step. cbv beta iota.
    destruct (checkPodResourcesExist_results X cfg p w6)
      as (b7 & t7 & w7 & server & tappers & E7 & _ & _ & _ & B7 & C7 & _).
    rewrite (bind_ok _ _ _ _ _ _ E7). unfold ret. cbv beta iota.
    exists (b7 && (allowed (e6, r6) && (allowed (e5, r5) &&
             (allowed (e4, r4) && (allowed (e3, r3) &&
             (allowed (e2, r2) && allowed (e1, r1))))))), (passed server).
    do 2 eexists. split; [reflexivity|].
    autorewrite with trace. rewrite C7. cbn [calls flat_map app].
    rewrite ?app_nil_r.
    split; [reflexivity|].
    rewrite B7. cbn [forallb]. destruct (passed server); [reflexivity|].
    cbn [andb]. discriminate.
Qed.

(** *** The probe pod and its watch *)

Lemma PodPhase_eqb_eq (a b : PodPhase) : PodPhase_eqb a b = true -> a = b.
Proof. destruct a, b; (reflexivity || discriminate). Qed.

(** X12.  [checkImagePullInCluster] passes exactly when the namespace was
    created (or, in namespace-restricted mode, needed no creation), the probe
    pod was created, and the watch ended in nil.  Its calls are the creation
    calls as far as they got (no pod after a failed namespace, no watch after
    a failed pod), followed on every path by [RemovePod] for the probe pod
    and, outside namespace-restricted mode, [RemoveNamespace]. *)
Theorem checkImagePullInCluster_outcome :
  forall (X : Externals) (cfg : Config) (p : Provider X) (w : World X),
    let ns := MizuResourcesNamespace cfg in
    let name := "image-pull-in-cluster" in
    let regex := ("^" ++ name ++ "$")%string in
    let created :=
      if IsNsRestrictedMode cfg then (None, w) else CreateNamespace X p ns w in
    let pod := CreatePod X p ns (probePod name) (snd created) in
    let watch := FilteredWatch X p regex [ns] (snd pod) in
    let run := checkImagePullInCluster X cfg p w in
    fst (fst run)
    = Ok (isNil (fst created) && isNil (fst pod)
          && isNil (fst (selectLoop true true (fst watch))))
    /\ calls (snd (fst run))
       = (if IsNsRestrictedMode cfg then [] else [CreateNamespaceCall ns]) ++
         match fst created with
         | Some _ => []
         | None =>
             CreatePodCall ns name ::
             match fst pod with
             | Some _ => []
             | None => [FilteredWatchCall regex [ns]]
             end
         end ++
         RemovePodCall ns name ::
         (if IsNsRestrictedMode cfg then [] else [RemoveNamespaceCall ns]).
Proof.
  intros X cfg p w ns name regex created pod watch run.
  subst run watch pod created regex name ns.
  unfold checkImagePullInCluster, checkImagePullInClusterBody,
    createImagePullInClusterResources, removeImagePullInClusterResources,
    checkImagePulled, probePod, defer, bind, call, log, ret.
  cbv zeta.
  destruct (IsNsRestrictedMode cfg); cbn [negb fst snd].
  - destruct (CreatePod X p _ _ w) as [[e2|] w2]; cbn [fst snd isNil andb].
    + destruct (RemovePod X p _ _ w2) as [[e4|] w4]; split; reflexivity.
    + destruct (FilteredWatch X p _ _ w2) as [turns w3]; cbn [fst snd].
      destruct (fst (selectLoop true true turns)) as [e3|];
        destruct (RemovePod X p _ _ w3) as [[e4|] w4]; split; reflexivity.
  - destruct (CreateNamespace X p _ w) as [[e1|] w1];
      cbn [fst snd isNil andb].
    + destruct (RemovePod X p _ _ w1) as [[e4|] w4];
        destruct (RemoveNamespace X p _ w4) as [[e5|] w5];
        split; reflexivity.
    + destruct (CreatePod X p _ _ w1) as [[e2|] w2]; cbn [fst snd isNil andb].
      * destruct (RemovePod X p _ _ w2) as [[e4|] w4];
          destruct (RemoveNamespace X p _ w4) as [[e5|] w5];
          split; reflexivity.
      * destruct (FilteredWatch X p _ _ w2) as [turns w3]; cbn [fst snd].
        destruct (fst (selectLoop true true turns)) as [e3|];
          destruct (RemovePod X p _ _ w3) as [[e4|] w4];
          destruct (RemoveNamespace X p _ w4) as [[e5|] w5];
          split; reflexivity.
Qed.

(** X13.  Outside namespace-restricted mode, when the namespace cannot be
    created (for one, because it is there already), the check fails without
    creating the pod, and its deferred removal still calls [RemovePod] and
    [RemoveNamespace] on that namespace. *)
Theorem checkImagePullInCluster_namespace_not_created :
  forall (X : Externals) (cfg : Config) (p : Provider X) (w w1 : World X)
         (err : Err),
    IsNsRestrictedMode cfg = false ->
    CreateNamespace X p (MizuResourcesNamespace cfg) w = (Some err, w1) ->
    exists (t : list Event) (w' : World X),
      checkImagePullInCluster X cfg p w = (Ok false, t, w')
      /\ calls t
         = [CreateNamespaceCall (MizuResourcesNamespace cfg);
            RemovePodCall (MizuResourcesNamespace cfg)
                          "image-pull-in-cluster";
            RemoveNamespaceCall (MizuResourcesNamespace cfg)]
      /\ w' = snd (RemoveNamespace X p (MizuResourcesNamespace cfg)
                     (snd (RemovePod X p (MizuResourcesNamespace cfg)
                             "image-pull-in-cluster" w1))).
Proof.
  intros X cfg p w w1 err HR EC.
  unfold checkImagePullInCluster, checkImagePullInClusterBody,
    createImagePullInClusterResources, removeImagePullInClusterResources,
    defer, bind, call, log, ret.
  cbv zeta. rewrite HR. cbn [negb]. rewrite EC.
  destruct (RemovePod X p _ _ w1) as [[e4|] w4]; cbn [fst snd];
    destruct (RemoveNamespace X p _ w4) as [[e5|] w5];
    do 2 eexists; repeat split.
Qed.

(** X14.  What [checkImagePulled] returns comes from what the watch
    delivered.  Whenever it returns nil, a pod event with phase Running was
    delivered, or a nil on the error channel; whenever it returns an error,
    that error is the timeout error, the conversion error of a delivered
    event, or an error delivered on the error channel.  (Nothing is said of a
    call that panics, as one with a pattern that does not compile does.) *)
Theorem checkImagePulled_provenance :
  forall (X : Externals) (cfg : Config) (p : Provider X) (podName : string)
         (w : World X),
    let turns :=
      fst (FilteredWatch X p ("^" ++ podName ++ "$")%string
                         [MizuResourcesNamespace cfg] w) in
    match fst (fst (checkImagePulled X cfg p podName w)) with
    | Ok None =>
        (exists wEvent pod,
            In (RecvEvent (Some wEvent)) turns
            /\ ToPod X wEvent = Val pod /\ StatusPhase pod = PodRunning)
        \/ In (RecvError (Some None)) turns
    | Ok (Some err) =>
        err = imageNotPulledInTime
        \/ (exists wEvent,
               In (RecvEvent (Some wEvent)) turns
               /\ ToPod X wEvent = Fail err)
        \/ In (RecvError (Some (Some err))) turns
    | Panic _ => True
    end.
Proof.
  intros X cfg p podName w turns. subst turns.
  unfold checkImagePulled. rewrite bind_call.
  destruct (FilteredWatch X p _ _ w) as [turns w1]. cbn [fst snd ret].
  generalize true at 1 as eventChan. generalize true as errorChan.
  induction turns as [|t turns IH]; intros errorChan eventChan.
  - cbn. now left.
  - assert (K : forall ev er,
               match fst (selectLoop ev er turns) with
               | Some err =>
                   err = imageNotPulledInTime
                   \/ (exists wEvent,
                          In (RecvEvent (Some wEvent)) (t :: turns)
                          /\ ToPod X wEvent = Fail err)
                   \/ In (RecvError (Some (Some err))) (t :: turns)
               | None =>
                   (exists wEvent pod,
                       In (RecvEvent (Some wEvent)) (t :: turns)
                       /\ ToPod X wEvent = Val pod
                       /\ StatusPhase pod = PodRunning)
                   \/ In (RecvError (Some None)) (t :: turns)
               end).
    { intros ev er. specialize (IH er ev).
      destruct (fst (selectLoop ev er turns)) as [err|].
      - destruct IH as [E|[(wEvent & I & T)|I]]; [now left| |].
        + right. left. exists wEvent. split; [now right|exact T].
        + right. right. now right.
      - destruct IH as [(wEvent & pod & I & T & R)|I].
        + left. exists wEvent, pod. split; [now right|now split].
        + right. now right. }
    destruct t as [[wEvent|]|[e|]|]; cbn [selectLoop].
    + destruct eventChan; [|apply K].
      destruct (ToPod X wEvent) as [pod|err] eqn:T.
      * destruct (PodPhase_eqb (StatusPhase pod) PodRunning) eqn:R;
          [|apply K].
        cbn [fst]. left. exists wEvent, pod.
        split; [now left|]. split; [exact T|now apply PodPhase_eqb_eq].
      * cbn [fst]. right. left. exists wEvent. split; [now left|exact T].
    + destruct eventChan; apply K.
    + destruct errorChan; [|apply K].
      cbn [fst]. destruct e as [err|].
      * right. right. now left.
      * right. now left.
    + destruct errorChan; apply K.
    + cbn [fst]. now left.
Qed.

(** X15.  Let the watch deliver some quiet turns that leave the error channel
    open, then a value on the error channel.  The select loop returns that
    value at that turn and reads nothing after it, and [checkImagePulled]
    returns it: a later Running pod does not count. *)
Theorem checkImagePulled_watch_error :
  forall (X : Externals) (cfg : Config) (p : Provider X) (podName : string)
         (w w1 : World X) (pre post : list (Select (WatchEvent X)))
         (received : error),
    FilteredWatch X p ("^" ++ podName ++ "$")%string
                  [MizuResourcesNamespace cfg] w
    = (pre ++ RecvError (Some received) :: post, w1) ->
    forallb quiet pre = true ->
    existsb closesErrors pre = false ->
    selectLoop true true (pre ++ RecvError (Some received) :: post)
    = (received, post)
    /\ fst (fst (checkImagePulled X cfg p podName w)) = Ok received.
Proof.
  intros X cfg p podName w w1 pre post received EW Q NC.
  assert (L : selectLoop true true (pre ++ RecvError (Some received) :: post)
              = (received, post)).
  { rewrite (selectLoop_quiet X pre _ Q), NC.
    cbn [negb andb]. now destruct (negb (existsb closesEvents pre)). }
  split; [exact L|].
  rewrite (checkImagePulled_run X cfg p podName w _ w1 EW), L. reflexivity.
Qed.

(** *** Prerequisites *)

(** X16.  Unless the client can be built, the cluster tells its version and
    the version is accepted, a run in either mode returns false having called
    nothing but [NewProvider], possibly [GetKubernetesVersion], and the
    deferred cancel: no resource is looked up, no permission asked, no pod
    created, no connection tested. *)
Theorem runMizuCheck_prerequisites :
  forall (X : Externals) (cfg : Config) (w : World X),
    prerequisitesHold X cfg w = false ->
    fst (fst (runMizuCheck X cfg w)) = Ok false
    /\ forallb isPrerequisiteCall (calls (snd (fst (runMizuCheck X cfg w))))
       = true.
Proof.
  intros X cfg w H. unfold prerequisitesHold in H.
  unfold runMizuCheck, checkKubernetesApi, checkKubernetesVersion, defer.
  repeat first [ rewrite bind_assoc | rewrite bind_log | rewrite bind_call
               | progress cbv beta iota ].
  destruct (NewProvider X _ _ w) as [[p|err] w1].
  - repeat first [ rewrite bind_assoc | rewrite bind_log | rewrite bind_call
                 | progress cbv beta iota ].
    destruct (GetKubernetesVersion X p w1) as [[v|err] w2].
    + repeat first [ rewrite bind_assoc | rewrite bind_log | rewrite bind_call
                   | rewrite bind_ret_l | progress cbn [deref]
                   | progress cbv beta iota ].
      destruct (ValidateKubernetesVersion X v) as [err|]; [|discriminate H].
      destruct (PreTap cfg); split; reflexivity.
    + destruct (PreTap cfg); split; reflexivity.
  - destruct (PreTap cfg); split; reflexivity.
Qed.

(** *** The further properties at concrete inputs *)

(** A rule without groups and a rule without verbs ask nothing. *)
Lemma checkPermissions_nothing_to_ask_groupless :
  let verbless :=
    {| APIGroups := ["apps"]; Resources := ["pods"]; Verbs := [] |} in
  (forall rule, In rule [groupless; verbless] ->
     APIGroups rule = [] \/ Resources rule = [] \/ Verbs rule = [])
  /\ checkPermissions (scripted healthy) preTap tt [groupless; verbless] 0
     = (Ok true, [], 0).
Proof.
  intros verbless.
  assert (H : forall rule, In rule [groupless; verbless] ->
              APIGroups rule = [] \/ Resources rule = [] \/ Verbs rule = []).
  { intros rule [<-|[<-|[]]]; [left|right; right]; reflexivity. }
  split; [exact H|].
  exact (checkPermissions_nothing_to_ask (scripted healthy) preTap tt
           [groupless; verbless] 0 H).
Defined.

(** The manifest is read and does not decode. *)
Lemma checkK8sTapPermissions_no_manifest_undecodable :
  (exists data,
      ReadFile (scripted undecodable)
               "permissionFiles/permissions-all-namespaces-tap.yaml"
      = Val data
      /\ Decode (scripted undecodable) data = Fail "yaml: line 3")
  /\ checkK8sTapPermissions (scripted undecodable) preTap tt 0
     = (Ok false,
        [Logged Info (Heading "kubernetes-permissions");
         Logged Error (PermissionsFileError "yaml: line 3")], 0).
Proof.
  split; [exists []; split; reflexivity|].
  apply (checkK8sTapPermissions_no_manifest (scripted undecodable) preTap tt 0
           "yaml: line 3").
  right. exists []. split; reflexivity.
Defined.

(** A post-tap run against a server that is down, tunnels and all. *)
Lemma runMizuCheck_postTap_reads_only_serverDown :
  PreTap postTap = false
  /\ forallb notPreTap
       (calls (snd (fst (runMizuCheck (scripted serverDown) postTap 0))))
     = true.
Proof.
  split; [reflexivity|].
  apply (runMizuCheck_postTap_reads_only (scripted serverDown) postTap 0).
  reflexivity.
Defined.

(** A pre-tap run on a healthy cluster. *)
Lemma runMizuCheck_preTap_no_installation_calls_healthy :
  PreTap preTap = true
  /\ forallb notPostTap
       (calls (snd (fst (runMizuCheck (scripted healthy) preTap 0))))
     = true.
Proof.
  split; [reflexivity|].
  apply (runMizuCheck_preTap_no_installation_calls (scripted healthy) preTap
           0).
  reflexivity.
Defined.

(** A Role where a ClusterRole is asserted: the run that panics. *)
Lemma runMizuCheck_panics_only_on_manifest_kind_wrongKind :
  let t :=
    [Logged Info MizuChecks;
     Logged Info (Heading "kubernetes-api");
     Called (NewProviderCall "~/.kube/config" "");
     Logged Info CanInitClient;
     Called GetKubernetesVersionCall;
     Logged Info CanQueryApi;
     Logged Info (Heading "kubernetes-version");
     Logged Info VersionOk;
     Logged Info (Heading "kubernetes-permissions");
     Called CancelCall] in
  runMizuCheck (scripted wrongKind) preTap 0
  = (Panic "interface conversion", t, 0)
  /\ PreTap preTap = true
  /\ manifestKindOk (scripted wrongKind) preTap = false
  /\ (exists t0, t = t0 ++ [Called CancelCall])
  /\ forallb notStatusResults t = true.
Proof.
  intros t. split; [reflexivity|].
  apply (runMizuCheck_panics_only_on_manifest_kind (scripted wrongKind) preTap
           0 0 "interface conversion" t).
  reflexivity.
Defined.

Lemma runMizuCheck_wrong_manifest_kind_wrongKind :
  (PreTap preTap = true
   /\ manifestKindOk (scripted wrongKind) preTap = false
   /\ NewProvider (scripted wrongKind) (KubeConfigPath preTap)
                  (KubeContext preTap) 0 = (Val tt, 0)
   /\ GetKubernetesVersion (scripted wrongKind) tt 0 = (Val 21, 0)
   /\ ValidateKubernetesVersion (scripted wrongKind) 21 = None)
  /\ fst (fst (runMizuCheck (scripted wrongKind) preTap 0))
     = Panic "interface conversion".
Proof.
  split; [repeat split|].
  rewrite (runMizuCheck_wrong_manifest_kind (scripted wrongKind) preTap 0 0 0
             tt 21 eq_refl eq_refl eq_refl eq_refl eq_refl).
  reflexivity.
Defined.

(** The namespace is there already: it is removed all the same. *)
Lemma checkImagePullInCluster_namespace_not_created_taken :
  (IsNsRestrictedMode preTap = false
   /\ CreateNamespace namespaceTaken tt (MizuResourcesNamespace preTap) 0
      = (Some "namespaces already exists", 0))
  /\ exists (t : list Event) (w' : nat),
      checkImagePullInCluster namespaceTaken preTap tt 0 = (Ok false, t, w')
      /\ calls t
         = [CreateNamespaceCall "mizu";
            RemovePodCall "mizu" "image-pull-in-cluster";
            RemoveNamespaceCall "mizu"]
      /\ w' = 0.
Proof.
  split; [split; reflexivity|].
  apply (checkImagePullInCluster_namespace_not_created namespaceTaken preTap
           tt 0 0 "namespaces already exists"); reflexivity.
Defined.

(** The watch breaks after the event channel has closed. *)
Lemma checkImagePulled_watch_error_watchFails :
  let pre := [RecvEvent (Some (Val (pendingPod probePodName)));
              RecvEvent None] in
  let post := [RecvEvent (Some (Val (runningPod probePodName)))] in
  (FilteredWatch (scripted watchFails) tt
                 ("^" ++ probePodName ++ "$")%string
                 [MizuResourcesNamespace preTap] 0
   = (pre ++ RecvError (Some (Some "watch closed")) :: post, 0)
   /\ forallb (@quiet (scripted watchFails)) pre = true
   /\ existsb closesErrors pre = false)
  /\ (@selectLoop (scripted watchFails) true true
        (pre ++ RecvError (Some (Some "watch closed")) :: post)
      = (Some "watch closed", post)
      /\ fst (fst (checkImagePulled (scripted watchFails) preTap tt
                                    probePodName 0))
         = Ok (Some "watch closed")).
Proof.
  intros pre post.
  split; [repeat split|].
  apply (checkImagePulled_watch_error (scripted watchFails) preTap tt
           probePodName 0 0 pre post (Some "watch closed")); reflexivity.
Defined.

(** A cluster whose version is refused, in post-tap mode. *)
Lemma runMizuCheck_prerequisites_oldCluster :
  prerequisitesHold (scripted oldCluster) postTap 0 = false
  /\ fst (fst (runMizuCheck (scripted oldCluster) postTap 0)) = Ok false
  /\ forallb isPrerequisiteCall
       (calls (snd (fst (runMizuCheck (scripted oldCluster) postTap 0))))
     = true.
Proof.
  split; [reflexivity|].
  apply (runMizuCheck_prerequisites (scripted oldCluster) postTap 0).
  reflexivity.
Defined.
